(** * http2test: the request-file parser, the report writer and the retry
    driver of [main.go], embedded in Rocq.

    Go strings are byte strings and are modelled by [string]; the header
    table [map[string]string] is a [gmap string string]; Go's [int] values
    are [Z].  The Go standard library is modelled as far as [main.go] uses
    it, one Rocq module per Go package. *)

From Stdlib Require Import ZArith NArith Ascii String List Lia.
From Stdlib Require Import DecimalString.
From Stdlib Require DecimalPos DecimalZ.
From stdpp Require Import gmap strings.

Local Open Scope string_scope.
Local Open Scope list_scope.

(** String concatenation is written [+:+]; [++] is kept for lists. *)

(** ** Errors and results *)

(** The [error] values that reach [main]: the parser's own
    [fmt.Errorf("invalid request line")], the scanner's [bufio.ErrTooLong],
    and errors raised by the operating system or the network, which carry
    their message. *)
Inductive error : Type :=
| ErrInvalidRequestLine
| ErrTooLong
| ErrEnv (msg : string).

Definition Error (e : error) : string :=
  match e with
  | ErrInvalidRequestLine => "invalid request line"
  | ErrTooLong => "bufio.Scanner: token too long"
  | ErrEnv msg => msg
  end.

(** A Go pair [(T, error)] whose error is checked before the value is used. *)
Inductive result (A : Type) : Type :=
| Ok (a : A)
| Err (e : error).
Arguments Ok {A} a.
Arguments Err {A} e.

Definition is_err {A} (r : result A) : bool :=
  match r with Ok _ => false | Err _ => true end.

(** ** Byte-string slicing: [s[:n]] and [s[n:]] *)

Fixpoint slice_to (s : string) (n : nat) {struct n} : string :=
  match n, s with
  | S n', String c s' => String c (slice_to s' n')
  | _, _ => EmptyString
  end.

Fixpoint slice_from (s : string) (n : nat) {struct n} : string :=
  match n, s with
  | S n', String _ s' => slice_from s' n'
  | _, _ => s
  end.

Definition LF : ascii := "010"%char.
Definition CR : ascii := "013"%char.

(** The string ["\n"]. *)
Definition nl : string := String LF "".

(** ** Package [strings] *)

Module strings.

Fixpoint HasPrefix (s prefix : string) {struct prefix} : bool :=
  match prefix, s with
  | EmptyString, _ => true
  | String a prefix', String b s' =>
      if Ascii.eqb a b then HasPrefix s' prefix' else false
  | String _ _, EmptyString => false
  end.

(** [Index s substr]: position of the first occurrence, [None] for Go's -1. *)
Fixpoint Index (s substr : string) : option nat :=
  if HasPrefix s substr then Some 0%nat
  else match s with
       | EmptyString => None
       | String _ s' => S <$> Index s' substr
       end.

(** The loop of [genSplit]: at most [cuts] cuts at the separator, then the
    remainder as the last element. *)
Fixpoint splitLoop (s sep : string) (cuts : nat) : list string :=
  match cuts with
  | O => [s]
  | S cuts' =>
      match Index s sep with
      | None => [s]
      | Some m => slice_to s m :: splitLoop (slice_from s (m + String.length sep)) sep cuts'
      end
  end.

(** [SplitN s sep n] for a non-empty [sep] and [n >= 0] (both call sites
    pass a literal separator and [n = 2]): [n] is capped at [len(s)+1]. *)
Definition SplitN (s sep : string) (n : nat) : list string :=
  match n with
  | O => []
  | S _ => splitLoop s sep (Nat.min n (String.length s + 1) - 1)
  end.

Fixpoint Join (elems : list string) (sep : string) : string :=
  match elems with
  | [] => ""
  | [x] => x
  | x :: xs => x +:+ sep +:+ Join xs sep
  end.

End strings.

(** ** Package [bufio]: a [Scanner] with the default [ScanLines] split *)

Module bufio.

Definition MaxScanTokenSize : N := 65536.

Fixpoint IndexByte (data : string) (c : ascii) : option nat :=
  match data with
  | EmptyString => None
  | String b data' => if Ascii.eqb b c then Some 0%nat else S <$> IndexByte data' c
  end.

Fixpoint dropCR (data : string) : string :=
  match data with
  | EmptyString => EmptyString
  | String c EmptyString => if Ascii.eqb c CR then EmptyString else data
  | String c rest => String c (dropCR rest)
  end.

(** [ScanLines data atEOF] on non-empty [data] whose end is known: the
    token and the bytes left after it. *)
Definition ScanLines (data : string) : string * string :=
  match IndexByte data LF with
  | Some i => (dropCR (slice_to data i), slice_from data (i + 1))
  | None => (dropCR data, EmptyString)
  end.

(** The scanner.  While [err = None], [pending] is every byte of the file
    not yet consumed (buffered or still unread).  Once the buffer has
    filled up without a line end, [err] is [ErrTooLong] and [pending] is
    the buffer: the file is not read any further. *)
Record Scanner : Type := { pending : string; err : option error }.

Definition NewScanner (content : string) : Scanner :=
  {| pending := content; err := None |}.

(** The first line of [data] does not fit the buffer: no line end among
    the first [MaxScanTokenSize] bytes, and at least that many bytes. *)
Definition overflows (data : string) : bool :=
  match IndexByte data LF with
  | Some i => (MaxScanTokenSize <=? N.of_nat i)%N
  | None => (MaxScanTokenSize <=? N.of_nat (String.length data))%N
  end.

(** [Scan]: [Some token] for [true] (the token is what [Text] returns),
    [None] for [false].  With nothing pending it is [false].  After the
    failure the split function is given the buffered bytes as the end of the
    input, so the next call still returns them as a token; [err] stays. *)
Definition Scan (s : Scanner) : option string * Scanner :=
  match pending s with
  | EmptyString => (None, s)
  | _ =>
      match err s with
      | Some _ =>
          let '(token, rest) := ScanLines (pending s) in
          (Some token, {| pending := rest; err := err s |})
      | None =>
          if overflows (pending s)
          then (None, {| pending := slice_to (pending s) (N.to_nat MaxScanTokenSize);
                         err := Some ErrTooLong |})
          else
            let '(token, rest) := ScanLines (pending s) in
            (Some token, {| pending := rest; err := None |})
      end
  end.

End bufio.

(** ** The parser *)

(** [RequestData] holds the parsed request information. *)
Record RequestData : Type := {
  Method : string;
  URL : string;
  Headers : gmap string string;
  Body : string
}.

(** [RequestData{}] *)
Definition zeroRequestData : RequestData :=
  {| Method := ""; URL := ""; Headers := ∅; Body := "" |}.

(** [for scanner.Scan() { ... }] over the header section.  [fuel] bounds the
    number of calls of [Scan]. *)
Fixpoint readHeaders (fuel : nat) (scanner : bufio.Scanner) (headers : gmap string string)
  : gmap string string * bufio.Scanner :=
  match fuel with
  | O => (headers, scanner)
  | S fuel' =>
      match bufio.Scan scanner with
      | (None, scanner') => (headers, scanner')
      | (Some line, scanner') =>
          if String.eqb line "" then (headers, scanner')
          else
            let parts := strings.SplitN line ": " 2 in
            if negb (length parts =? 2)%nat
            then readHeaders fuel' scanner' headers
            else readHeaders fuel' scanner' (<[nth 0 parts "" := nth 1 parts ""]> headers)
      end
  end.

(** [for scanner.Scan() { bodyLines = append(bodyLines, scanner.Text()) }] *)
Fixpoint readBody (fuel : nat) (scanner : bufio.Scanner) (bodyLines : list string)
  : list string * bufio.Scanner :=
  match fuel with
  | O => (bodyLines, scanner)
  | S fuel' =>
      match bufio.Scan scanner with
      | (None, scanner') => (bodyLines, scanner')
      | (Some line, scanner') => readBody fuel' scanner' (bodyLines ++ [line])
      end
  end.

(** The body of [ReadHTTPFile] once the file is open, on the file's bytes.
    Every successful [Scan] consumes at least one byte, so the two loops
    call [Scan] at most [len(content) + 1] times. *)
Definition parseContent (content : string) : result RequestData :=
  let fuel := S (String.length content) in
  let scanner := bufio.NewScanner content in
  let reqData := {| Method := ""; URL := ""; Headers := ∅; Body := "" |} in
  let '(first, scanner) := bufio.Scan scanner in
  let firstLine :=
    match first with
    | Some line =>
        let parts := strings.SplitN line " " 2 in
        if negb (length parts =? 2)%nat then Err ErrInvalidRequestLine
        else Ok {| Method := nth 0 parts ""; URL := nth 1 parts "";
                   Headers := Headers reqData; Body := Body reqData |}
    | None => Ok reqData
    end in
  match firstLine with
  | Err e => Err e
  | Ok reqData =>
      let '(headers, scanner) := readHeaders fuel scanner (Headers reqData) in
      let '(bodyLines, scanner) := readBody fuel scanner [] in
      let reqData := {| Method := Method reqData; URL := URL reqData;
                        Headers := headers;
                        Body := strings.Join bodyLines nl |} in
      match bufio.err scanner with
      | Some e => Err e
      | None => Ok reqData
      end
  end.

(** ** The outside world *)

Module http.

(** What [http.NewRequest] and [Header.Set] build.  [ReqURL] is the URL
    that [url.Parse] made of the URL string, written out again: the request
    carries that, not the string it was given. *)
Record Request : Type := {
  ReqMethod : string;
  ReqURL : string;
  Header : gmap string (list string);
  ReqBody : string
}.

(** [Body] is the outcome of draining the body stream with [io.ReadAll]. *)
Record Response : Type := {
  Status : string;
  StatusCode : Z;
  Body : result string
}.

End http.

(** What a run does besides printing.  [EvSend req] is one call of
    [client.Do] with the request [req]: the exchange that the client then
    has with the network for it (nothing at all when the call fails early,
    further requests when it follows redirects) takes place inside the call
    and is not recorded. *)
Inductive Event : Type :=
| EvSend (req : http.Request)      (* client.Do was called with req *)
| EvCreate (path : string)         (* os.Create created or truncated a file *)
| EvSleep (d : Z).                 (* time.Sleep was called with d nanoseconds *)

(** The state a run acts on: the file system, standard output (one entry
    per [fmt.Println]) and the history of the run's other effects, oldest
    first. *)
Record World : Type := {
  files : gmap string string;
  stdout : list string;
  trace : list Event
}.

(** What the program cannot decide: the clock, the validation done by
    [http.NewRequest] and the URL that [url.Parse] makes of a string, the
    outcome of a call of [client.Do] (the answer that the client returns in
    the end, redirects followed, or its error), failures of the file system
    and the order in which [range] visits a map.  Each answer may depend on
    the whole history. *)
Record Env : Type := {
  env_Unix : World -> Z;
  env_NewRequest : string -> string -> option error;
  env_Parse : string -> string;
  env_CanonicalHeaderKey : string -> string;
  env_Do : World -> http.Request -> result http.Response;
  env_Create : World -> string -> option error;
  env_Write : World -> string -> string -> option error;
  env_range : World -> gmap string string -> list (string * string)
}.

(** ** Effectful code: state passing with early return on error *)

Definition IO (A : Type) : Type := World -> result A * World.

Definition ret {A} (a : A) : IO A := fun w => (Ok a, w).

Definition bind {A B} (m : IO A) (k : A -> IO B) : IO B :=
  fun w =>
    match m w with
    | (Ok a, w') => k a w'
    | (Err e, w') => (Err e, w')
    end.

Notation "'do' x <- m ;; k" := (bind m (fun x => k))
  (at level 10, x name, m at level 99, k at level 200).

(** [for _, x := range xs { if err := f(x); err != nil { return err } }] *)
Fixpoint forEach {A} (xs : list A) (f : A -> IO unit) : IO unit :=
  match xs with
  | [] => ret tt
  | x :: xs' => do _ <- f x ;; forEach xs' f
  end.

Definition range (env : Env) (m : gmap string string) : IO (list (string * string)) :=
  fun w => (Ok (env_range env w m), w).

Definition log (ev : Event) (w : World) : World :=
  {| files := files w; stdout := stdout w; trace := trace w ++ [ev] |}.

Module fmt.

(** [fmt.Sprintf("%v", n)] for an integer [n]. *)
Definition Sprintf_v (n : Z) : string := NilZero.string_of_int (Z.to_int n).

Definition Println (line : string) (w : World) : World :=
  {| files := files w; stdout := stdout w ++ [line]; trace := trace w |}.

End fmt.

Module os.

(** [os.Create]: the file exists and is empty afterwards.  The handle is
    the path. *)
Definition Create (env : Env) (path : string) : IO string :=
  fun w =>
    match env_Create env w path with
    | Some e => (Err e, w)
    | None =>
        (Ok path, log (EvCreate path)
                      {| files := <[path := ""]> (files w);
                         stdout := stdout w; trace := trace w |})
    end.

(** [file.WriteString]: appends; a failed write leaves the file as it was. *)
Definition WriteString (env : Env) (file data : string) : IO unit :=
  fun w =>
    match env_Write env w file data with
    | Some e => (Err e, w)
    | None =>
        (Ok tt, {| files := alter (fun old => (old +:+ data)) file (files w);
                   stdout := stdout w; trace := trace w |})
    end.

End os.

Module io.

(** [io.ReadAll(response.Body)]: the outcome the stream holds. *)
Definition ReadAll (body : result string) : IO string := fun w => (body, w).

End io.

Module time.

Definition Second : Z := 1000000000.

(** [time.Duration] is an [int64]: products wrap around. *)
Definition wrap64 (z : Z) : Z := (z + 2 ^ 63) mod 2 ^ 64 - 2 ^ 63.

Definition Duration_mul (a b : Z) : Z := wrap64 (a * b).

Definition Now_Unix (env : Env) : IO Z := fun w => (Ok (env_Unix env w), w).

(** [time.Sleep d] returns at once when [d <= 0]. *)
Definition Sleep (d : Z) (w : World) : World := log (EvSleep d) w.

End time.

Module client.

(** [http.NewRequest(method, url, body)]: an empty method means GET, and
    the request holds the parsed URL. *)
Definition NewRequest (env : Env) (method url body : string) : IO http.Request :=
  fun w =>
    match env_NewRequest env method url with
    | Some e => (Err e, w)
    | None =>
        (Ok {| http.ReqMethod := if String.eqb method "" then "GET" else method;
               http.ReqURL := env_Parse env url; http.Header := ∅;
               http.ReqBody := body |}, w)
    end.

(** [req.Header.Set(k, v)] *)
Definition Header_Set (env : Env) (req : http.Request) (k v : string) : http.Request :=
  {| http.ReqMethod := http.ReqMethod req; http.ReqURL := http.ReqURL req;
     http.Header := <[env_CanonicalHeaderKey env k := [v]]> (http.Header req);
     http.ReqBody := http.ReqBody req |}.

(** [client.Do(req)]: the call is recorded with the request it was given;
    its outcome is the environment's. *)
Definition Do (env : Env) (req : http.Request) : IO http.Response :=
  fun w => (env_Do env w req, log (EvSend req) w).

End client.

(** ** The three functions of [main.go] and [main] *)

(** [ReadHTTPFile] parses the .HTTP file and returns [RequestData].  The
    [files] of the world are the paths that open and can be read to their
    end, each with its bytes.  Any other path fails before a line is parsed;
    the message is that of a missing file, also where the operating system
    would give another reason (a directory, a read error). *)
Definition ReadHTTPFile (filePath : string) : IO RequestData :=
  fun w =>
    match files w !! filePath with
    | None => (Err (ErrEnv ("open " +:+ filePath +:+ ": no such file or directory")), w)
    | Some content => (parseContent content, w)
    end.

(** [SendRequest] sends an HTTP request based on [RequestData]. *)
Definition SendRequest (env : Env) (reqData : RequestData) (retryCount sleepSec : Z)
  : IO http.Response :=
  do req <- client.NewRequest env (Method reqData) (URL reqData) (Body reqData) ;;
  do hs <- range env (Headers reqData) ;;
  let req := fold_left (fun r kv => client.Header_Set env r kv.1 kv.2) hs req in
  client.Do env req.

Definition reportName (outputPath : string) (unix statusCode : Z) : string :=
  outputPath +:+ "|" +:+ fmt.Sprintf_v unix +:+ "-status:" +:+ fmt.Sprintf_v statusCode +:+ ".txt".

(** [GenerateReport] creates a report of the request and response. *)
Definition GenerateReport (env : Env) (outputPath : string) (reqData : RequestData)
    (response : http.Response) : IO unit :=
  do unix <- time.Now_Unix env ;;
  do file <- os.Create env (reportName outputPath unix (http.StatusCode response)) ;;
  do _ <- os.WriteString env file
    ("Request Method: " +:+ Method reqData +:+ nl +:+ "Request URL: " +:+ URL reqData +:+ nl +:+ nl) ;;
  do _ <- os.WriteString env file ("Request Headers:" +:+ nl) ;;
  do hs <- range env (Headers reqData) ;;
  do _ <- forEach hs (fun kv => os.WriteString env file (kv.1 +:+ ": " +:+ kv.2 +:+ nl)) ;;
  do _ <- os.WriteString env file (nl +:+ "Request Body:" +:+ nl +:+ Body reqData +:+ nl +:+ nl) ;;
  do responseBody <- io.ReadAll (http.Body response) ;;
  os.WriteString env file
    ("Response Status: " +:+ http.Status response +:+ nl +:+ "Response Body:" +:+ nl
       +:+ responseBody +:+ nl).

Definition defaultRetry : Z := 1.
Definition defaultSleep : Z := 0.

(** The command line after [flag.Parse]. *)
Record Flags : Type := { source : string; output : string; retry : Z; sleep : Z }.

(** [if *retry == 0 { retry = &defaultRetry }] and
    [if *sleep == 0 { sleep = &defaultSleep }]: what [*retry] and [*sleep]
    read afterwards. *)
Definition effectiveRetry (retry : Z) : Z := if (retry =? 0)%Z then defaultRetry else retry.
Definition effectiveSleep (sleep : Z) : Z := if (sleep =? 0)%Z then defaultSleep else sleep.

(** [for i := 0; i < *retry; i++ { ... }] with [n] iterations left: an
    error is printed and ends the run, a success is followed by the sleep. *)
Fixpoint retryLoop (env : Env) (n : nat) (output : string) (reqData : RequestData)
    (retry sleep : Z) (w : World) : World :=
  match n with
  | O => w
  | S n' =>
      match SendRequest env reqData retry sleep w with
      | (Err e, w1) => fmt.Println (Error e) w1
      | (Ok response, w1) =>
          match GenerateReport env output reqData response w1 with
          | (Err e, w2) => fmt.Println (Error e) w2
          | (Ok _, w2) =>
              retryLoop env n' output reqData retry sleep
                (time.Sleep (time.Duration_mul sleep time.Second) w2)
          end
      end
  end.

(** [main]: the world it leaves.  The loop runs [*retry] times, not at all
    when [*retry] is negative. *)
Definition main (env : Env) (flags : Flags) (w : World) : World :=
  if (String.eqb (source flags) "" || String.eqb (output flags) "")%bool
  then fmt.Println "Usage: httpclient -source <path> -output <path>" w
  else
    let retry := effectiveRetry (retry flags) in
    let sleep := effectiveSleep (sleep flags) in
    match ReadHTTPFile (source flags) w with
    | (Err e, w') => fmt.Println (Error e) w'
    | (Ok reqData, w') => retryLoop env (Z.to_nat retry) (output flags) reqData retry sleep w'
    end.

(** ** The request file as a list of lines

    The definitions below describe the file format the way its
    documentation does (lines, the first blank line, the first occurrence of
    a separator); the theorems relate them to the scanner-driven code
    above. *)

(** The byte sequences between line feeds; a final line feed does not open
    another line. *)
Fixpoint rawLines (s : string) : list string :=
  match s with
  | EmptyString => []
  | String c s' =>
      if Ascii.eqb c LF then EmptyString :: rawLines s'
      else match rawLines s' with
           | [] => [String c EmptyString]
           | l :: ls => String c l :: ls
           end
  end.

(** The lines of a file: one carriage return before the line end is not
    part of the line. *)
Definition lines (content : string) : list string :=
  map bufio.dropCR (rawLines content).

Definition longLine (l : string) : bool :=
  (bufio.MaxScanTokenSize <=? N.of_nat (String.length l))%N.

(** Some line of the file has [MaxScanTokenSize] bytes or more. *)
Definition tooLong (content : string) : bool := existsb longLine (rawLines content).

(** [splitFirst sep line]: the text before and the text after the first
    occurrence of [sep] in [line]. *)
Fixpoint splitFirst (sep line : string) : option (string * string) :=
  if strings.HasPrefix line sep then Some (EmptyString, slice_from line (String.length sep))
  else match line with
       | EmptyString => None
       | String c rest =>
           match splitFirst sep rest with
           | Some (before, after) => Some (String c before, after)
           | None => None
           end
       end.

(** [sep] occurs in [s] at byte offset [k]. *)
Definition occursAt (sep s : string) (k : nat) : Prop :=
  strings.HasPrefix (slice_from s k) sep = true.

(** The lines up to, and excluding, the first empty line. *)
Fixpoint headerLines (ls : list string) : list string :=
  match ls with
  | [] => []
  | l :: ls' => if String.eqb l "" then [] else l :: headerLines ls'
  end.

(** The lines after the first empty line. *)
Fixpoint afterBlank (ls : list string) : list string :=
  match ls with
  | [] => []
  | l :: ls' => if String.eqb l "" then ls' else afterBlank ls'
  end.

(** One header line: a line with the separator [": "] writes its name and
    value into the table, any other line leaves the table as it is. *)
Definition addHeader (headers : gmap string string) (line : string) : gmap string string :=
  match splitFirst ": " line with
  | Some (name, value) => <[name := value]> headers
  | None => headers
  end.

Definition specHeaders (ls : list string) : gmap string string :=
  fold_left addHeader (headerLines ls) ∅.

Definition specBody (ls : list string) : string := strings.Join (afterBlank ls) nl.

(** The parser's result, read off the lines of the file. *)
Definition parseSpec (content : string) : result RequestData :=
  match rawLines content with
  | [] => Ok zeroRequestData
  | raw :: _ =>
      if longLine raw then Err ErrTooLong
      else
        match splitFirst " " (bufio.dropCR raw) with
        | None => Err ErrInvalidRequestLine
        | Some (method, url) =>
            if tooLong content then Err ErrTooLong
            else Ok {| Method := method; URL := url;
                       Headers := specHeaders (tail (lines content));
                       Body := specBody (tail (lines content)) |}
        end
  end.

(** Space, tab, line feed, vertical tab, form feed, carriage return. *)
Definition isSpace (c : ascii) : bool :=
  let n := nat_of_ascii c in ((n =? 32) || ((9 <=? n) && (n <=? 13)))%nat.

(** The whitespace-separated tokens of a line ([strings.Fields] on ASCII). *)
Fixpoint fieldsFrom (cur : string) (s : string) : list string :=
  match s with
  | EmptyString => if String.eqb cur "" then [] else [cur]
  | String c s' =>
      if isSpace c
      then (if String.eqb cur "" then fieldsFrom "" s' else cur :: fieldsFrom "" s')
      else fieldsFrom (cur +:+ String c "") s'
  end.

Definition Fields (s : string) : list string := fieldsFrom "" s.

(** A scanner that has failed, or is bound to fail on a line further on. *)
Definition willFail (s : bufio.Scanner) : Prop :=
  match bufio.err s with
  | Some e => e = ErrTooLong
  | None => tooLong (bufio.pending s) = true
  end.

(** The line contains a space character. *)
Definition hasSpace (s : string) : bool :=
  existsb (Ascii.eqb " "%char) (list_ascii_of_string s).

(** The first line of a file, empty when the file has no line. *)
Definition firstLine (content : string) : string := hd "" (lines content).

(** ** Runs of the driver *)

(** One pass through the body of the retry loop: [Err] where the body
    prints the error and returns from [main]. *)
Definition iteration (env : Env) (output : string) (reqData : RequestData)
    (retry sleep : Z) : IO unit :=
  do response <- SendRequest env reqData retry sleep ;;
  do _ <- GenerateReport env output reqData response ;;
  fun w => (Ok tt, time.Sleep (time.Duration_mul sleep time.Second) w).

Fixpoint iterations (env : Env) (n : nat) (output : string) (reqData : RequestData)
    (retry sleep : Z) : IO unit :=
  match n with
  | O => ret tt
  | S n' =>
      do _ <- iteration env output reqData retry sleep ;;
      iterations env n' output reqData retry sleep
  end.

(** The requests handed to [client.Do] and the files created in a
    history. *)
Definition sends (tr : list Event) : list http.Request :=
  omap (fun ev => match ev with EvSend req => Some req | _ => None end) tr.

Definition creates (tr : list Event) : list string :=
  omap (fun ev => match ev with EvCreate path => Some path | _ => None end) tr.

(** The header lines of a report, in the order [range] visited them. *)
Fixpoint headerBlock (hs : list (string * string)) : string :=
  match hs with
  | [] => ""
  | kv :: hs' => (kv.1 +:+ ": " +:+ kv.2 +:+ nl) +:+ headerBlock hs'
  end.

(** The name of the report written in world [p.1] for the response [p.2]. *)
Definition writtenName (env : Env) (output : string) (p : World * http.Response) : string :=
  reportName output (env_Unix env p.1) (http.StatusCode p.2).

(** ** Sample environments *)

Definition okResponse : http.Response :=
  {| http.Status := "200 OK"; http.StatusCode := 200; http.Body := Ok "pong" |}.

(** A server that always answers, a disk that never fails, a clock that
    shows the same second throughout. *)
Definition quickEnv : Env := {|
  env_Unix := fun _ => 1700000000%Z;
  env_NewRequest := fun _ _ => None;
  env_Parse := fun url => url;
  env_CanonicalHeaderKey := fun k => k;
  env_Do := fun _ _ => Ok okResponse;
  env_Create := fun _ _ => None;
  env_Write := fun _ _ _ => None;
  env_range := fun _ m => map_to_list m
|}.

(** As [quickEnv], with a clock that moves on one second per event. *)
Definition tickingEnv : Env := {|
  env_Unix := fun w => (1700000000 + Z.of_nat (length (trace w)))%Z;
  env_NewRequest := fun _ _ => None;
  env_Parse := fun url => url;
  env_CanonicalHeaderKey := fun k => k;
  env_Do := fun _ _ => Ok okResponse;
  env_Create := fun _ _ => None;
  env_Write := fun _ _ _ => None;
  env_range := fun _ m => map_to_list m
|}.

(** As [quickEnv], but the connection breaks while the body of every
    response is read. *)
Definition brokenBodyEnv : Env := {|
  env_Unix := fun _ => 1700000000%Z;
  env_NewRequest := fun _ _ => None;
  env_Parse := fun url => url;
  env_CanonicalHeaderKey := fun k => k;
  env_Do := fun _ _ =>
    Ok {| http.Status := "200 OK"; http.StatusCode := 200;
          http.Body := Err (ErrEnv "unexpected EOF") |};
  env_Create := fun _ _ => None;
  env_Write := fun _ _ _ => None;
  env_range := fun _ m => map_to_list m
|}.

(** As [quickEnv], but the second request is refused. *)
Definition secondFailsEnv : Env := {|
  env_Unix := fun _ => 1700000000%Z;
  env_NewRequest := fun _ _ => None;
  env_Parse := fun url => url;
  env_CanonicalHeaderKey := fun k => k;
  env_Do := fun w _ =>
    if (length (sends (trace w)) =? 1)%nat
    then Err (ErrEnv "connection refused") else Ok okResponse;
  env_Create := fun _ _ => None;
  env_Write := fun _ _ _ => None;
  env_range := fun _ m => map_to_list m
|}.

Definition sampleRequest : RequestData :=
  {| Method := "GET"; URL := "http://x/y"; Headers := <["A" := "1"]> ∅; Body := "hi" |}.

Definition sampleWorld : World :=
  {| files := {[ "t.http" := "GET http://x/y" +:+ nl +:+ "A: 1" +:+ nl +:+ nl +:+ "hi" ]};
     stdout := []; trace := [] |}.

Definition sampleFlags (retry sleep : Z) : Flags :=
  {| source := "t.http"; output := "out"; retry := retry; sleep := sleep |}.

(** The file [name] holds [text]; the rest of the world is as given. *)
Definition holds (name text : string) (fs : gmap string string) (out : list string)
    (tr : list Event) (w : World) : Prop :=
  files w = <[name := text]> fs /\ stdout w = out /\ trace w = tr.

(** An action that sends nothing, creates nothing and prints nothing,
    whatever its outcome. *)
Definition quiet {A} (m : IO A) : Prop :=
  forall w r w', m w = (r, w') -> trace w' = trace w /\ stdout w' = stdout w.

(** The text of a report. *)
Definition reportText (reqData : RequestData) (status block responseBody : string) : string :=
  "Request Method: " +:+ Method reqData +:+ nl +:+ "Request URL: " +:+ URL reqData +:+ nl
    +:+ nl +:+ "Request Headers:" +:+ nl +:+ block
    +:+ nl +:+ "Request Body:" +:+ nl +:+ Body reqData +:+ nl +:+ nl
    +:+ "Response Status: " +:+ status +:+ nl +:+ "Response Body:" +:+ nl
    +:+ responseBody +:+ nl.

(** Sample request files. *)
Definition headersFile : string :=
  "POST http://x/y" +:+ nl +:+ "A: 1" +:+ nl +:+ "garbage" +:+ nl +:+ "A: 2: 3" +:+ nl
    +:+ nl +:+ "B: not a header".

Definition bodyFile : string :=
  "PUT http://x/y" +:+ nl +:+ "A: 1" +:+ nl +:+ nl +:+ "hello" +:+ nl +:+ nl +:+ "world" +:+ nl.

(** A request file whose second line is as long as the scanner's buffer. *)
Fixpoint filler (n : nat) (acc : string) : string :=
  match n with
  | O => acc
  | S n' => filler n' (String "a" acc)
  end.

Definition longFile : string :=
  "GET x" +:+ nl +:+ filler (N.to_nat bufio.MaxScanTokenSize) "".

(** ** Notions used to state further properties of the parser *)

(** The byte [c] occurs in [s]. *)
Definition hasByte (c : ascii) (s : string) : bool :=
  existsb (Ascii.eqb c) (list_ascii_of_string s).

(** The last byte of [s] is [c]. *)
Fixpoint endsWith (c : ascii) (s : string) : bool :=
  match s with
  | EmptyString => false
  | String a EmptyString => Ascii.eqb a c
  | String _ s' => endsWith c s'
  end.

(** [s] without one final line feed. *)
Fixpoint chomp (s : string) : string :=
  match s with
  | EmptyString => EmptyString
  | String c EmptyString => if Ascii.eqb c LF then EmptyString else s
  | String c s' => String c (chomp s')
  end.

(** [s] with every line feed preceded by a carriage return. *)
Fixpoint toCRLF (s : string) : string :=
  match s with
  | EmptyString => EmptyString
  | String c s' =>
      if Ascii.eqb c LF then String CR (String LF (toCRLF s')) else String c (toCRLF s')
  end.

(** The value of the last of the lines [ls] that is a header named [name]. *)
Fixpoint lastHeader (name : string) (ls : list string) : option string :=
  match ls with
  | [] => None
  | l :: ls' =>
      match lastHeader name ls' with
      | Some v => Some v
      | None =>
          match splitFirst ": " l with
          | Some (k, v) => if String.eqb k name then Some v else None
          | None => None
          end
      end
  end.

(** A request file written out from its parts: the request line, one line
    per header, an empty line, the body. *)
Definition headerLine (kv : string * string) : string := kv.1 +:+ ": " +:+ kv.2.

Fixpoint unlines (ls : list string) : string :=
  match ls with
  | [] => ""
  | l :: ls' => l +:+ nl +:+ unlines ls'
  end.

Definition render (method url : string) (hs : list (string * string)) (body : string)
  : string :=
  (method +:+ " " +:+ url) +:+ nl +:+ unlines (map headerLine hs) +:+ nl +:+ body.

(** ** Notions used to state further properties of the driver *)

(** The sleeps taken in a history. *)
Definition sleeps (tr : list Event) : list Z :=
  omap (fun ev => match ev with EvSleep d => Some d | _ => None end) tr.

(** [req] was made by [http.NewRequest] from the method (GET when it is
    empty), the URL and the body of the request data. *)
Definition carries (env : Env) (reqData : RequestData) (req : http.Request) : Prop :=
  http.ReqMethod req = (if String.eqb (Method reqData) "" then "GET" else Method reqData)
  /\ http.ReqURL req = env_Parse env (URL reqData)
  /\ http.ReqBody req = Body reqData.

(** An action that leaves every file but [name] as it is and removes no
    file, whatever its outcome. *)
Definition keepsOthers {A} (name : string) (m : IO A) : Prop :=
  forall w r w', m w = (r, w') ->
    (forall p, p <> name -> files w' !! p = files w !! p)
    /\ dom (files w) ⊆ dom (files w').

(** The events of one complete iteration. *)
Definition iterationEvents (sleep : Z) (step : http.Request * string) : list Event :=
  [EvSend step.1; EvCreate step.2; EvSleep (time.Duration_mul sleep time.Second)].

(** A file name the report writer can produce for the prefix [output]. *)
Definition isReportName (output path : string) : Prop :=
  exists unix statusCode, path = reportName output unix statusCode.

(** The events of an iteration that failed: nothing, the request, or the
    request and the creation of the report file. *)
Definition unfinished (env : Env) (reqData : RequestData) (output : string)
    (evs : list Event) : Prop :=
  evs = []
  \/ (exists req, evs = [EvSend req] /\ carries env reqData req)
  \/ (exists req name, evs = [EvSend req; EvCreate name]
                       /\ carries env reqData req /\ isReportName output name).

(** The steps of a run: each request carries the request data, each report
    has a report name. *)
Definition wellFormedSteps (env : Env) (reqData : RequestData) (output : string)
    (steps : list (http.Request * string)) : Prop :=
  Forall (fun st => carries env reqData st.1 /\ isReportName output st.2) steps.

(** A run of [main] that completes every iteration: both flags are given,
    the source file is parsed and no pass through the loop fails. *)
Definition completes (env : Env) (flags : Flags) (w : World) : Prop :=
  source flags <> "" /\ output flags <> ""
  /\ exists reqData w',
       ReadHTTPFile (source flags) w = (Ok reqData, w)
       /\ iterations env (Z.to_nat (effectiveRetry (retry flags))) (output flags) reqData
            (effectiveRetry (retry flags)) (effectiveSleep (sleep flags)) w
          = (Ok tt, w').

(** * Verification *)

(** ** Strings *)

#[local] Arguments String.append !s1 s2 : simpl nomatch.

Lemma length_slice_to (s : string) (n : nat) :
  (String.length (slice_to s n) <= String.length s)%nat.
Proof.
  revert s; induction n as [|n IH]; intros [|c s]; simpl; try lia.
  specialize (IH s); lia.
Qed.

Lemma length_slice_from_lt (s : string) (n : nat) :
  (n < String.length s)%nat ->
  (String.length (slice_from s (n + 1)) < String.length s)%nat.
Proof.
  revert s; induction n as [|n IH]; intros [|c s]; simpl; try lia.
  intros H. assert (Hn : (n < String.length s)%nat) by lia.
  specialize (IH s Hn). lia.
Qed.

Lemma slice_to_length_lt (s : string) (n : nat) :
  (n <= String.length s)%nat -> String.length (slice_to s n) = n.
Proof.
  revert s; induction n as [|n IH]; intros [|c s]; simpl; try lia.
  intros H. rewrite IH; lia.
Qed.

Lemma slice_from_app (a b : string) :
  slice_from (a +:+ b) (String.length a) = b.
Proof. induction a as [|c a IH]; simpl; [by destruct b|exact IH]. Qed.

Lemma HasPrefix_app (sep b : string) : strings.HasPrefix (sep +:+ b) sep = true.
Proof.
  induction sep as [|c sep IH]; simpl; [done|].
  rewrite Ascii.eqb_refl. exact IH.
Qed.

Lemma HasPrefix_inv (s sep : string) :
  strings.HasPrefix s sep = true -> s = sep +:+ slice_from s (String.length sep).
Proof.
  revert s; induction sep as [|c sep IH]; intros s; simpl.
  - by destruct s.
  - destruct s as [|b s]; [done|].
    destruct (Ascii.eqb c b) eqn:E; [|done].
    apply Ascii.eqb_eq in E; subst b. intros H. cbn. f_equal. by apply IH.
Qed.

(** ** [SplitN] with a limit of two is a split at the first separator *)

Lemma Index_splitFirst (sep s : string) :
  splitFirst sep s =
    match strings.Index s sep with
    | Some m => Some (slice_to s m, slice_from s (m + String.length sep))
    | None => None
    end.
Proof.
  induction s as [|c s IH].
  - simpl. destruct (strings.HasPrefix "" sep); [|done].
    simpl. by destruct sep.
  - cbn [splitFirst strings.Index].
    destruct (strings.HasPrefix (String c s) sep) eqn:E.
    + simpl. by destruct sep.
    + rewrite IH. destruct (strings.Index s sep) as [m|]; simpl; done.
Qed.

Lemma SplitN_2 (s sep : string) :
  sep <> "" ->
  strings.SplitN s sep 2 =
    match splitFirst sep s with
    | Some (before, after) => [before; after]
    | None => [s]
    end.
Proof.
  intros Hsep. rewrite Index_splitFirst. unfold strings.SplitN.
  destruct s as [|c s].
  - simpl. destruct sep; [done|]. reflexivity.
  - replace (Nat.min 2 (String.length (String c s) + 1) - 1)%nat with 1%nat
      by (cbn [String.length]; lia).
    cbn [strings.splitLoop].
    destruct (strings.Index (String c s) sep); reflexivity.
Qed.

Lemma splitFirst_Some (sep s before after : string) :
  splitFirst sep s = Some (before, after) ->
  s = before +:+ sep +:+ after
  /\ forall k, (k < String.length before)%nat -> ~ occursAt sep s k.
Proof.
  revert before; induction s as [|c s IH]; intros before; cbn [splitFirst].
  - destruct (strings.HasPrefix "" sep) eqn:E; [|done].
    intros [= <- <-]. split; [|simpl; lia].
    simpl. by apply HasPrefix_inv in E.
  - destruct (strings.HasPrefix (String c s) sep) eqn:E.
    + intros [= <- <-]. split; [|simpl; lia].
      simpl. by apply HasPrefix_inv in E.
    + destruct (splitFirst sep s) as [[b a]|]; [|done].
      intros [= <- <-]. destruct (IH b eq_refl) as [Hs Hk].
      split; [simpl; by f_equal|].
      intros [|k] Hlt; unfold occursAt; simpl.
      * by rewrite E.
      * apply Hk. simpl in Hlt. lia.
Qed.

Lemma splitFirst_None (sep s : string) :
  splitFirst sep s = None -> forall k, ~ occursAt sep s k.
Proof.
  induction s as [|c s IH]; cbn [splitFirst].
  - destruct (strings.HasPrefix "" sep) eqn:E; [done|].
    intros _ k. unfold occursAt. destruct k; simpl; by rewrite E.
  - destruct (strings.HasPrefix (String c s) sep) eqn:E; [done|].
    destruct (splitFirst sep s) as [[b a]|] eqn:E'; [done|].
    intros _ [|k]; unfold occursAt; simpl; [by rewrite E|].
    by apply IH.
Qed.

Lemma splitFirst_prefix (sep s : string) :
  strings.HasPrefix s sep = true ->
  splitFirst sep s = Some ("", slice_from s (String.length sep)).
Proof. intros H. destruct s; cbn [splitFirst]; by rewrite H. Qed.

(** Conversely: a separator with nothing of it starting earlier is where
    the line is split. *)
Lemma splitFirst_first (sep before after : string) :
  (forall k, (k < String.length before)%nat ->
             ~ occursAt sep (before +:+ sep +:+ after) k) ->
  splitFirst sep (before +:+ sep +:+ after) = Some (before, after).
Proof.
  induction before as [|c b IH]; intros Hk.
  - change ("" +:+ sep +:+ after) with (sep +:+ after).
    rewrite splitFirst_prefix by apply HasPrefix_app.
    by rewrite slice_from_app.
  - change (String c b +:+ sep +:+ after) with (String c (b +:+ sep +:+ after)).
    cbn [splitFirst].
    destruct (strings.HasPrefix (String c (b +:+ sep +:+ after)) sep) eqn:E.
    + exfalso. apply (Hk 0%nat); [simpl; lia|]. exact E.
    + rewrite IH; [done|]. intros k Hlt Hocc.
      apply (Hk (S k)); [simpl; lia|]. exact Hocc.
Qed.

(** ** The scanner yields the lines of the file *)

Lemma rawLines_nil (p : string) : rawLines p = [] -> p = "".
Proof.
  destruct p as [|c p]; [done|]. simpl.
  destruct (Ascii.eqb c LF); [done|]. by destruct (rawLines p).
Qed.

Lemma IndexByte_lt (p : string) (c : ascii) (i : nat) :
  bufio.IndexByte p c = Some i -> (i < String.length p)%nat.
Proof.
  revert i; induction p as [|b p IH]; intros i; simpl; [done|].
  destruct (Ascii.eqb b c); [intros [= <-]; lia|].
  destruct (bufio.IndexByte p c) as [j|]; [|done].
  intros [= <-]. specialize (IH j eq_refl). lia.
Qed.

Lemma rawLines_IndexByte (p : string) :
  p <> "" ->
  rawLines p =
    match bufio.IndexByte p LF with
    | Some i => slice_to p i :: rawLines (slice_from p (i + 1))
    | None => [p]
    end.
Proof.
  induction p as [|c p IH]; [done|]. intros _.
  cbn [rawLines bufio.IndexByte].
  destruct (Ascii.eqb c LF); [reflexivity|].
  destruct p as [|c' p]; [reflexivity|].
  rewrite IH by done.
  destruct (bufio.IndexByte (String c' p) LF) as [i|]; [|reflexivity].
  cbn [fmap option_fmap option_map slice_to]. f_equal.
Qed.

Lemma overflows_longLine (p raw : string) (rest : list string) :
  rawLines p = raw :: rest -> bufio.overflows p = longLine raw.
Proof.
  intros H. assert (Hp : p <> "") by (intros ->; done).
  rewrite (rawLines_IndexByte p Hp) in H. unfold bufio.overflows, longLine.
  destruct (bufio.IndexByte p LF) as [i|] eqn:E; injection H as <- _; [|done].
  apply IndexByte_lt in E. rewrite slice_to_length_lt by lia. done.
Qed.

Lemma ScanLines_rawLines (p raw : string) (rest : list string) :
  rawLines p = raw :: rest ->
  exists p', bufio.ScanLines p = (bufio.dropCR raw, p')
             /\ rawLines p' = rest
             /\ (String.length p' < String.length p)%nat.
Proof.
  intros H. assert (Hp : p <> "") by (intros ->; done).
  rewrite (rawLines_IndexByte p Hp) in H. unfold bufio.ScanLines.
  destruct (bufio.IndexByte p LF) as [i|] eqn:E; injection H as <- <-.
  - eexists; split; [reflexivity|]. split; [done|].
    apply length_slice_from_lt. by apply IndexByte_lt in E.
  - exists "". split; [done|]. split; [done|].
    destruct p; [done|simpl; lia].
Qed.

Lemma Scan_empty (e : option error) :
  bufio.Scan {| bufio.pending := ""; bufio.err := e |}
  = (None, {| bufio.pending := ""; bufio.err := e |}).
Proof. reflexivity. Qed.

Lemma Scan_line (p raw : string) (rest : list string) :
  rawLines p = raw :: rest -> longLine raw = false ->
  exists p', bufio.Scan (bufio.NewScanner p) = (Some (bufio.dropCR raw), bufio.NewScanner p')
             /\ rawLines p' = rest
             /\ (String.length p' < String.length p)%nat.
Proof.
  intros H Hshort.
  destruct (ScanLines_rawLines p raw rest H) as (p' & HS & Hrest & Hlen).
  exists p'. split; [|done].
  unfold bufio.Scan, bufio.NewScanner; cbn [bufio.pending bufio.err].
  destruct p as [|c p]; [done|].
  rewrite (overflows_longLine _ _ _ H), Hshort, HS. reflexivity.
Qed.

Lemma Scan_overflow (p raw : string) (rest : list string) :
  rawLines p = raw :: rest -> longLine raw = true ->
  bufio.Scan (bufio.NewScanner p)
  = (None, {| bufio.pending := slice_to p (N.to_nat bufio.MaxScanTokenSize);
              bufio.err := Some ErrTooLong |}).
Proof.
  intros H Hlong.
  unfold bufio.Scan, bufio.NewScanner; cbn [bufio.pending bufio.err].
  destruct p as [|c p]; [done|].
  rewrite (overflows_longLine _ _ _ H), Hlong. reflexivity.
Qed.

(** *** Files without an over-long line *)

Lemma readBody_lines (fuel : nat) (p : string) (acc : list string) :
  (String.length p < fuel)%nat -> tooLong p = false ->
  readBody fuel (bufio.NewScanner p) acc = (acc ++ lines p, bufio.NewScanner "").
Proof.
  revert p acc; induction fuel as [|fuel IH]; intros p acc Hfuel Hok; [lia|].
  cbn [readBody]. unfold lines.
  destruct (rawLines p) as [|raw rest] eqn:E.
  - apply rawLines_nil in E; subst p. simpl. by rewrite app_nil_r.
  - unfold tooLong in Hok. rewrite E in Hok. cbn [existsb] in Hok.
    apply orb_false_iff in Hok as [Hraw Hrest].
    destruct (Scan_line p raw rest E Hraw) as (p' & -> & Hp' & Hlen).
    rewrite IH; [|lia|by unfold tooLong; rewrite Hp'].
    unfold lines. rewrite Hp'. cbn [map]. by rewrite <- app_assoc.
Qed.

Lemma addHeader_SplitN (headers : gmap string string) (line : string) :
  (let parts := strings.SplitN line ": " 2 in
   if negb (length parts =? 2)%nat then headers
   else <[nth 0 parts "" := nth 1 parts ""]> headers)
  = addHeader headers line.
Proof.
  cbv zeta. rewrite SplitN_2 by done. unfold addHeader.
  destruct (splitFirst ": " line) as [[name value]|]; reflexivity.
Qed.

Lemma readHeaders_stop (fuel : nat) (s s' : bufio.Scanner) (headers : gmap string string) :
  bufio.Scan s = (None, s') -> readHeaders (S fuel) s headers = (headers, s').
Proof. intros H. cbn [readHeaders]. by rewrite H. Qed.

Lemma readHeaders_blank (fuel : nat) (s s' : bufio.Scanner) (headers : gmap string string) :
  bufio.Scan s = (Some "", s') -> readHeaders (S fuel) s headers = (headers, s').
Proof. intros H. cbn [readHeaders]. by rewrite H. Qed.

Lemma readHeaders_step (fuel : nat) (s s' : bufio.Scanner) (headers : gmap string string)
    (line : string) :
  bufio.Scan s = (Some line, s') -> String.eqb line "" = false ->
  readHeaders (S fuel) s headers = readHeaders fuel s' (addHeader headers line).
Proof.
  intros H Hne. cbn [readHeaders]. rewrite H, Hne.
  rewrite <- addHeader_SplitN. cbv zeta.
  by destruct (negb (length (strings.SplitN line ": " 2) =? 2)%nat).
Qed.

Lemma readHeaders_lines (fuel : nat) (p : string) (headers : gmap string string) :
  (String.length p < fuel)%nat -> tooLong p = false ->
  exists p',
    readHeaders fuel (bufio.NewScanner p) headers
    = (fold_left addHeader (headerLines (lines p)) headers, bufio.NewScanner p')
    /\ lines p' = afterBlank (lines p)
    /\ tooLong p' = false
    /\ (String.length p' <= String.length p)%nat.
Proof.
  revert p headers; induction fuel as [|fuel IH]; intros p headers Hfuel Hok; [lia|].
  unfold lines.
  destruct (rawLines p) as [|raw rest] eqn:E.
  - apply rawLines_nil in E; subst p. exists "". simpl. done.
  - unfold tooLong in Hok. rewrite E in Hok. cbn [existsb] in Hok.
    apply orb_false_iff in Hok as [Hraw Hrest].
    destruct (Scan_line p raw rest E Hraw) as (p' & HS & Hp' & Hlen).
    assert (Hok' : tooLong p' = false) by (by unfold tooLong; rewrite Hp').
    cbn [map headerLines afterBlank].
    destruct (String.eqb (bufio.dropCR raw) "") eqn:Eblank.
    + apply String.eqb_eq in Eblank. rewrite Eblank in HS.
      exists p'. rewrite (readHeaders_blank _ _ _ _ HS).
      unfold lines. rewrite Hp'. repeat split; [done|lia].
    + rewrite (readHeaders_step _ _ _ _ _ HS Eblank).
      destruct (IH p' (addHeader headers (bufio.dropCR raw))) as (q & Hq & Hl & Ht & Hle);
        [lia|done|].
      exists q. rewrite Hq. unfold lines in *. rewrite Hp' in *.
      repeat split; [done|done|lia].
Qed.

(** *** Files with an over-long line *)

Lemma rawLines_cons (p : string) :
  p <> "" -> exists raw rest, rawLines p = raw :: rest.
Proof.
  intros Hp. destruct (rawLines p) as [|raw rest] eqn:E; [|by eauto].
  by apply rawLines_nil in E.
Qed.

Lemma Scan_willFail (s s' : bufio.Scanner) (tok : option string) :
  bufio.Scan s = (tok, s') -> willFail s ->
  willFail s'
  /\ (String.length (bufio.pending s') <= String.length (bufio.pending s))%nat
  /\ (tok <> None ->
      (String.length (bufio.pending s') < String.length (bufio.pending s))%nat)
  /\ (tok = None -> bufio.err s' = Some ErrTooLong).
Proof.
  destruct s as [p e]. unfold willFail; cbn [bufio.pending bufio.err].
  destruct (decide (p = "")) as [->|Hp].
  - rewrite Scan_empty. intros [= <- <-]; cbn [bufio.pending bufio.err].
    destruct e as [e|]; [intros ->|done]. repeat split; first [done | lia | intros; lia].
  - destruct (rawLines_cons p Hp) as (raw & rest & E).
    destruct e as [e|].
    + destruct (ScanLines_rawLines p raw rest E) as (p' & HS & _ & Hlen).
      unfold bufio.Scan; cbn [bufio.pending bufio.err]. rewrite HS.
      destruct p; [done|]. intros [= <- <-] ->; cbn [bufio.pending bufio.err].
      repeat split; first [done | lia | intros; lia].
    + unfold tooLong. rewrite E. cbn [existsb].
      destruct (longLine raw) eqn:Hl.
      * change {| bufio.pending := p; bufio.err := None |} with (bufio.NewScanner p).
        rewrite (Scan_overflow p raw rest E Hl).
        generalize (N.to_nat bufio.MaxScanTokenSize) as n.
        intros n [= <- <-] _; cbn [bufio.pending bufio.err].
        pose proof (length_slice_to p n).
        repeat split; first [done | lia | intros; lia].
      * change {| bufio.pending := p; bufio.err := None |} with (bufio.NewScanner p).
        destruct (Scan_line p raw rest E Hl) as (p' & -> & Hp' & Hlen).
        intros [= <- <-] Hrest; cbn [bufio.NewScanner bufio.pending bufio.err].
        rewrite Hp'. repeat split; first [done | lia | intros; lia].
Qed.

Lemma readHeaders_willFail (fuel : nat) (s : bufio.Scanner) (headers : gmap string string) :
  willFail s ->
  willFail (readHeaders fuel s headers).2
  /\ (String.length (bufio.pending (readHeaders fuel s headers).2)
      <= String.length (bufio.pending s))%nat.
Proof.
  revert s headers; induction fuel as [|fuel IH]; intros s headers Hs; [by split|].
  destruct (bufio.Scan s) as [tok s'] eqn:HS.
  destruct (Scan_willFail s s' tok HS Hs) as (Hs' & Hle & _ & _).
  destruct tok as [line|]; [|by rewrite (readHeaders_stop _ _ _ _ HS)].
  destruct (String.eqb line "") eqn:Eblank.
  - apply String.eqb_eq in Eblank; subst line.
    by rewrite (readHeaders_blank _ _ _ _ HS).
  - rewrite (readHeaders_step _ _ _ _ _ HS Eblank).
    destruct (IH s' (addHeader headers line) Hs') as [H1 H2]. split; [done|lia].
Qed.

Lemma readBody_willFail (fuel : nat) (s : bufio.Scanner) (acc : list string) :
  willFail s -> (String.length (bufio.pending s) < fuel)%nat ->
  bufio.err (readBody fuel s acc).2 = Some ErrTooLong.
Proof.
  revert s acc; induction fuel as [|fuel IH]; intros s acc Hs Hfuel; [lia|].
  cbn [readBody].
  destruct (bufio.Scan s) as [tok s'] eqn:HS.
  destruct (Scan_willFail s s' tok HS Hs) as (Hs' & Hle & Hlt & Herr).
  destruct tok as [line|]; [|by apply Herr].
  apply IH; [done|]. specialize (Hlt ltac:(done)). lia.
Qed.

(** ** The parser computes what the file format says *)

Lemma parseContent_fails (fuel : nat) (s : bufio.Scanner) (reqData : RequestData) :
  willFail s -> (String.length (bufio.pending s) < fuel)%nat ->
  (let '(headers, scanner) := readHeaders fuel s (Headers reqData) in
   let '(bodyLines, scanner) := readBody fuel scanner [] in
   match bufio.err scanner with
   | Some e => Err e
   | None => Ok {| Method := Method reqData; URL := URL reqData; Headers := headers;
                   Body := strings.Join bodyLines nl |}
   end) = Err ErrTooLong.
Proof.
  intros Hs Hfuel.
  destruct (readHeaders_willFail fuel s (Headers reqData) Hs) as [H1 H2].
  destruct (readHeaders fuel s (Headers reqData)) as [headers s2]; cbn [snd] in *.
  assert (H3 := readBody_willFail fuel s2 [] H1 ltac:(lia)).
  destruct (readBody fuel s2 []) as [bodyLines s3]; cbn [snd] in *.
  by rewrite H3.
Qed.

Theorem parseContent_parseSpec (content : string) :
  parseContent content = parseSpec content.
Proof.
  unfold parseContent, parseSpec.
  destruct (rawLines content) as [|raw rest] eqn:E.
  { apply rawLines_nil in E; subst content. reflexivity. }
  destruct (longLine raw) eqn:Hl.
  - rewrite (Scan_overflow content raw rest E Hl).
    generalize (N.to_nat bufio.MaxScanTokenSize) as n. intros n.
    apply (parseContent_fails _ _ {| Method := ""; URL := ""; Headers := ∅; Body := "" |}).
    + reflexivity.
    + cbn [bufio.pending]. pose proof (length_slice_to content n). lia.
  - destruct (Scan_line content raw rest E Hl) as (p1 & -> & Hp1 & Hlen).
    rewrite SplitN_2 by done.
    destruct (splitFirst " " (bufio.dropCR raw)) as [[method url]|]; [|reflexivity].
    cbn [length Nat.eqb negb nth Headers Body Method URL].
    assert (Htl : tooLong content = tooLong p1).
    { unfold tooLong. rewrite E, Hp1. cbn [existsb]. by rewrite Hl. }
    assert (Hlines : tail (lines content) = lines p1).
    { unfold lines. rewrite E, Hp1. reflexivity. }
    rewrite Htl, Hlines.
    destruct (tooLong p1) eqn:Hlong.
    + apply (parseContent_fails _ _
               {| Method := method; URL := url; Headers := ∅; Body := "" |});
        [exact Hlong|cbn [bufio.NewScanner bufio.pending]; lia].
    + destruct (readHeaders_lines (S (String.length content)) p1 ∅) as (p2 & -> & Hl2 & Ht2 & Hle2);
        [lia|done|].
      rewrite readBody_lines by (lia || done).
      cbn [bufio.NewScanner bufio.err app].
      unfold specHeaders, specBody, nl. by rewrite Hl2.
Qed.

Lemma splitFirst_space (s : string) :
  splitFirst " " s =
    if hasSpace s
    then match splitFirst " " s with
         | Some p => Some p
         | None => None
         end
    else None.
Proof.
  induction s as [|c s IH]; [reflexivity|].
  unfold hasSpace in *. cbn [list_ascii_of_string existsb splitFirst strings.HasPrefix].
  rewrite IH.
  destruct (Ascii.eqb " " c) eqn:Ec; cbn [orb].
  - destruct s; reflexivity.
  - destruct (existsb (Ascii.eqb " ") (list_ascii_of_string s)); [|reflexivity].
    destruct (splitFirst " " s) as [[a b]|]; reflexivity.
Qed.

Lemma splitFirst_no_space (s : string) :
  hasSpace s = false -> splitFirst " " s = None.
Proof. intros H. rewrite splitFirst_space. by rewrite H. Qed.

Lemma splitFirst_has_space (s : string) :
  hasSpace s = true -> exists method url, splitFirst " " s = Some (method, url).
Proof.
  induction s as [|c s IH]; [done|].
  unfold hasSpace in *. cbn [list_ascii_of_string existsb splitFirst strings.HasPrefix].
  destruct (Ascii.eqb " " c) eqn:Ec; cbn [orb].
  - intros _. destruct s; eauto.
  - intros H. destruct (IH H) as (m & u & ->). eauto.
Qed.

Lemma splitFirst_space_app (method url : string) :
  hasSpace method = false ->
  splitFirst " " (method +:+ " " +:+ url) = Some (method, url).
Proof.
  induction method as [|c m IH]; intros H.
  - reflexivity.
  - unfold hasSpace in H. cbn [list_ascii_of_string existsb] in H.
    apply orb_false_iff in H as [Hc Hm].
    change (String c m +:+ " " +:+ url) with (String c (m +:+ " " +:+ url)).
    cbn [splitFirst strings.HasPrefix]. rewrite Hc.
    rewrite (IH Hm). reflexivity.
Qed.

Lemma hasSpace_None (s : string) :
  splitFirst " " s = None -> hasSpace s = false.
Proof.
  intros H. destruct (hasSpace s) eqn:E; [|done].
  destruct (splitFirst_has_space s E) as (m & u & H'). congruence.
Qed.

(** The two outcomes of the parser on a file with at least one line. *)
Lemma parseContent_ok (content first method url : string) (rest : list string) :
  lines content = first :: rest ->
  splitFirst " " first = Some (method, url) ->
  tooLong content = false ->
  parseContent content
  = Ok {| Method := method; URL := url;
          Headers := specHeaders rest; Body := specBody rest |}.
Proof.
  intros Hlines Hsplit Hshort. rewrite parseContent_parseSpec. unfold parseSpec.
  rewrite Hshort, Hlines. unfold lines, tooLong in *.
  destruct (rawLines content) as [|raw raws]; [done|].
  cbn [map existsb] in *. injection Hlines as <- <-.
  apply orb_false_iff in Hshort as [-> _]. by rewrite Hsplit.
Qed.

Lemma parseContent_Ok_inv (content : string) (r : RequestData) :
  parseContent content = Ok r ->
  (lines content = [] /\ r = zeroRequestData)
  \/ exists first rest method url,
       lines content = first :: rest
       /\ splitFirst " " first = Some (method, url)
       /\ tooLong content = false
       /\ r = {| Method := method; URL := url;
                 Headers := specHeaders rest; Body := specBody rest |}.
Proof.
  rewrite parseContent_parseSpec. unfold parseSpec, lines.
  destruct (rawLines content) as [|raw raws] eqn:E.
  - intros [= <-]. by left.
  - destruct (longLine raw); [done|].
    destruct (splitFirst " " (bufio.dropCR raw)) as [[method url]|] eqn:Hs; [|done].
    destruct (tooLong content) eqn:Ht; [done|].
    intros [= <-]. right. exists (bufio.dropCR raw), (map bufio.dropCR raws), method, url.
    done.
Qed.

Lemma parseContent_Err_inv (content : string) (e : error) :
  parseContent content = Err e ->
  (exists raw rest, rawLines content = raw :: rest /\ longLine raw = false
                    /\ hasSpace (bufio.dropCR raw) = false /\ e = ErrInvalidRequestLine)
  \/ (tooLong content = true /\ e = ErrTooLong).
Proof.
  rewrite parseContent_parseSpec. unfold parseSpec.
  destruct (rawLines content) as [|raw raws] eqn:E; [done|].
  destruct (longLine raw) eqn:Hl.
  - intros [= <-]. right. unfold tooLong. rewrite E. cbn [existsb]. by rewrite Hl.
  - destruct (splitFirst " " (bufio.dropCR raw)) as [[method url]|] eqn:Hs.
    + destruct (tooLong content); [|done]. intros [= <-]. by right.
    + intros [= <-]. left. exists raw, raws. by rewrite (hasSpace_None _ Hs).
Qed.

(** ** The report writer *)

Lemma append_assoc (a b c : string) : (a +:+ b) +:+ c = a +:+ b +:+ c.
Proof. induction a as [|x a IH]; simpl; [done|by rewrite IH]. Qed.

Lemma append_nil_r (a : string) : a +:+ "" = a.
Proof. induction a as [|x a IH]; simpl; [done|by rewrite IH]. Qed.

Lemma WriteString_holds (env : Env) (name text data : string) fs out tr (w w' : World) :
  holds name text fs out tr w ->
  os.WriteString env name data w = (Ok tt, w') ->
  holds name (text +:+ data) fs out tr w'.
Proof.
  intros (Hf & Ho & Ht). unfold os.WriteString.
  destruct (env_Write env w name data); [done|]. intros [= <-].
  unfold holds; cbn [files stdout trace]. by rewrite Hf, alter_insert_eq.
Qed.

Lemma forEach_holds (env : Env) (name text : string) fs out tr
    (hs : list (string * string)) (w w' : World) :
  holds name text fs out tr w ->
  forEach hs (fun kv => os.WriteString env name (kv.1 +:+ ": " +:+ kv.2 +:+ nl)) w = (Ok tt, w') ->
  holds name (text +:+ headerBlock hs) fs out tr w'.
Proof.
  revert text w; induction hs as [|kv hs IH]; intros text w Hw.
  - intros [= <-]. cbn [headerBlock]. by rewrite append_nil_r.
  - cbn [forEach headerBlock]. unfold bind at 1.
    destruct (os.WriteString env name _ w) as [[[]|e] w1] eqn:E; [|done].
    intros Hrest. rewrite <- append_assoc.
    apply (IH _ w1); [|done]. by apply (WriteString_holds env _ _ _ _ _ _ w).
Qed.


Lemma Create_holds (env : Env) (name : string) (w w' : World) (file : string) :
  os.Create env name w = (Ok file, w') ->
  file = name /\ holds name "" (files w) (stdout w) (trace w ++ [EvCreate name]) w'.
Proof.
  unfold os.Create. destruct (env_Create env w name); [done|].
  intros [= <- <-]. done.
Qed.

Lemma bind_Ok_inv {A B} (m : IO A) (k : A -> IO B) (w w' : World) (b : B) :
  bind m k w = (Ok b, w') -> exists a w1, m w = (Ok a, w1) /\ k a w1 = (Ok b, w').
Proof. unfold bind. destruct (m w) as [[a|e] w1]; [by eauto|done]. Qed.

(** Splits a successful [do x <- m ;; k] in hypothesis [H] into the success
    of [m] and the success of [k]. *)
Tactic Notation "bind_inv" hyp(H) "as" simple_intropattern(x) ident(w) ident(Hx) :=
  apply bind_Ok_inv in H as (x & w & Hx & H).

Lemma GenerateReport_ok (env : Env) (output : string) (reqData : RequestData)
    (response : http.Response) (w w' : World) :
  GenerateReport env output reqData response w = (Ok tt, w') ->
  exists responseBody w1,
    http.Body response = Ok responseBody
    /\ holds (reportName output (env_Unix env w) (http.StatusCode response))
             (reportText reqData (http.Status response)
                (headerBlock (env_range env w1 (Headers reqData))) responseBody)
             (files w) (stdout w)
             (trace w ++ [EvCreate (reportName output (env_Unix env w) (http.StatusCode response))])
             w'.
Proof.
  unfold GenerateReport. intros H.
  bind_inv H as unix w0 Heq.
  unfold time.Now_Unix in Heq. injection Heq as <- <-.
  bind_inv H as file w1 H1.
  apply Create_holds in H1 as [-> H1].
  bind_inv H as [] w2 H2.
  apply (WriteString_holds env _ _ _ _ _ _ _ _ H1) in H2.
  bind_inv H as [] w3 H3.
  apply (WriteString_holds env _ _ _ _ _ _ _ _ H2) in H3.
  bind_inv H as hs w3' Heq.
  unfold range in Heq. injection Heq as <- <-.
  bind_inv H as [] w4 H4.
  apply (forEach_holds env _ _ _ _ _ _ _ _ H3) in H4.
  bind_inv H as [] w5 H5.
  apply (WriteString_holds env _ _ _ _ _ _ _ _ H4) in H5.
  bind_inv H as responseBody w6 H6.
  unfold io.ReadAll in H6. injection H6 as H6 <-.
  apply (WriteString_holds env _ _ _ _ _ _ _ _ H5) in H.
  exists responseBody, w3. split; [done|].
  destruct H as (Hf & Ho & Ht). split; [|done].
  rewrite Hf. f_equal. unfold reportText. rewrite !append_assoc. reflexivity.
Qed.

Lemma GenerateReport_succeeds (env : Env) (output : string) (reqData : RequestData)
    (response : http.Response) (responseBody : string) (w : World) :
  (forall w' path, env_Create env w' path = None) ->
  (forall w' file data, env_Write env w' file data = None) ->
  http.Body response = Ok responseBody ->
  exists w', GenerateReport env output reqData response w = (Ok tt, w').
Proof.
  intros HC HW HB.
  assert (Hloop : forall file hs w0, exists w1,
            forEach hs (fun kv => os.WriteString env file (kv.1 +:+ ": " +:+ kv.2 +:+ nl)) w0
            = (Ok tt, w1)).
  { intros file hs; induction hs as [|kv hs IH]; intros w0; [by eexists|].
    cbn [forEach]. unfold bind, os.WriteString at 1. rewrite HW. apply IH. }
  unfold GenerateReport, time.Now_Unix, range, io.ReadAll, bind, os.Create.
  rewrite HC. unfold os.WriteString at 1. rewrite HW.
  unfold os.WriteString at 1. rewrite HW.
  match goal with |- context [forEach ?hs ?f ?w0] =>
    destruct (Hloop (reportName output (env_Unix env w) (http.StatusCode response)) hs w0)
      as [w1 ->] end.
  unfold os.WriteString at 1. rewrite HW. rewrite HB.
  unfold os.WriteString. rewrite HW. by eexists.
Qed.

(** ** The retry loop *)

Lemma sends_app (a b : list Event) : sends (a ++ b) = sends a ++ sends b.
Proof. apply omap_app. Qed.

Lemma creates_app (a b : list Event) : creates (a ++ b) = creates a ++ creates b.
Proof. apply omap_app. Qed.

(** What one call of [SendRequest] does to the world: at most one request
    is sent, and that is all. *)
Lemma SendRequest_frame (env : Env) (reqData : RequestData) (retry sleep : Z)
    (w w1 : World) (res : result http.Response) :
  SendRequest env reqData retry sleep w = (res, w1) ->
  files w1 = files w /\ stdout w1 = stdout w
  /\ creates (trace w1) = creates (trace w)
  /\ (exists evs, trace w1 = trace w ++ evs /\ (length (sends evs) <= 1)%nat
                  /\ creates evs = [])
  /\ (is_err res = false -> exists req, trace w1 = trace w ++ [EvSend req]).
Proof.
  unfold SendRequest, bind, client.NewRequest, range, client.Do.
  destruct (env_NewRequest env (Method reqData) (URL reqData)) as [e|].
  - intros [= <- <-]. repeat split; [|done].
    exists []. rewrite app_nil_r. repeat split. cbn. lia.
  - intros [= <- <-]. cbn [log files stdout trace].
    rewrite creates_app, app_nil_r. repeat split; [|by eauto].
    eexists. repeat split. cbn. lia.
Qed.

Lemma quiet_ret {A} (a : A) : quiet (ret a).
Proof. by intros w r w' [= <- <-]. Qed.

Lemma quiet_bind {A B} (m : IO A) (k : A -> IO B) :
  quiet m -> (forall a, quiet (k a)) -> quiet (bind m k).
Proof.
  intros Hm Hk w r w'. unfold bind.
  destruct (m w) as [[a|e] w1] eqn:E; destruct (Hm _ _ _ E) as [Ht Ho].
  - intros H. destruct (Hk a _ _ _ H) as [Ht' Ho']. split; congruence.
  - by intros [= <- <-].
Qed.

Lemma quiet_WriteString (env : Env) (file data : string) :
  quiet (os.WriteString env file data).
Proof.
  intros w r w'. unfold os.WriteString.
  by destruct (env_Write env w file data); intros [= <- <-].
Qed.

Lemma quiet_range (env : Env) (m : gmap string string) : quiet (range env m).
Proof. by intros w r w' [= <- <-]. Qed.

Lemma quiet_ReadAll (body : result string) : quiet (io.ReadAll body).
Proof. by intros w r w' [= <- <-]. Qed.

Lemma quiet_forEach {A} (xs : list A) (f : A -> IO unit) :
  (forall x, quiet (f x)) -> quiet (forEach xs f).
Proof.
  intros Hf. induction xs as [|x xs IH]; cbn [forEach].
  - apply quiet_ret.
  - apply quiet_bind; [apply Hf|done].
Qed.

Create HintDb quiet.
#[local] Hint Resolve quiet_ret quiet_WriteString quiet_range quiet_ReadAll : quiet.
#[local] Hint Extern 2 (quiet (bind _ _)) => apply quiet_bind; [|intros ?] : quiet.
#[local] Hint Extern 2 (quiet (forEach _ _)) => apply quiet_forEach; intros ? : quiet.

(** What one call of [GenerateReport] does to the world, whatever its
    outcome: nothing is printed or sent, and at most the report file is
    created. *)
Lemma GenerateReport_frame (env : Env) (output : string) (reqData : RequestData)
    (response : http.Response) (w w' : World) (res : result unit) :
  GenerateReport env output reqData response w = (res, w') ->
  stdout w' = stdout w
  /\ (trace w' = trace w
      \/ trace w' = trace w
                    ++ [EvCreate (reportName output (env_Unix env w)
                                    (http.StatusCode response))]).
Proof.
  unfold GenerateReport. unfold bind at 1 2. unfold time.Now_Unix.
  destruct (os.Create env _ w) as [[file|e] w1] eqn:E.
  - apply Create_holds in E as [-> (_ & Ho & Ht)].
    intros H.
    match type of H with ?m w1 = _ => assert (Hq : quiet m) by auto 12 with quiet end.
    destruct (Hq _ _ _ H) as [Ht' Ho'].
    split; [congruence|]. right. congruence.
  - unfold os.Create in E. destruct (env_Create env w _); [|done].
    injection E as <- <-. intros [= <- <-]. by split; [|left].
Qed.

Section RetryLoop.

Context (env : Env) (output : string) (reqData : RequestData) (retry sleep : Z).

Lemma iteration_Err_frame (w wf : World) (e : error) :
  iteration env output reqData retry sleep w = (Err e, wf) ->
  stdout wf = stdout w
  /\ exists evs, trace wf = trace w ++ evs
                 /\ (length (sends evs) <= 1)%nat /\ (length (creates evs) <= 1)%nat.
Proof.
  unfold iteration, bind.
  destruct (SendRequest env reqData retry sleep w) as [[response|e1] w1] eqn:HS;
    destruct (SendRequest_frame _ _ _ _ _ _ _ HS) as (_ & Ho & _ & (evs & Ht & Hs & Hc) & _).
  - destruct (GenerateReport env output reqData response w1) as [[[]|e2] w2] eqn:HG; [done|].
    intros [= <- <-]. destruct (GenerateReport_frame _ _ _ _ _ _ _ HG) as [Ho' [Ht'|Ht']].
    + split; [congruence|]. exists evs. rewrite Ht', Ht, Hc.
      split; [done|]. split; [done|cbn; lia].
    + split; [congruence|]. eexists (evs ++ [_]). rewrite Ht', Ht, <- app_assoc.
      split; [done|]. rewrite sends_app, creates_app, Hc, length_app. cbn. lia.
  - intros [= <- <-]. split; [done|]. exists evs. rewrite Hc.
    split; [done|]. split; [done|cbn; lia].
Qed.

Lemma retryLoop_iterations (n : nat) (w : World) :
  retryLoop env n output reqData retry sleep w =
    match iterations env n output reqData retry sleep w with
    | (Ok _, w') => w'
    | (Err e, w') => fmt.Println (Error e) w'
    end.
Proof.
  revert w; induction n as [|n IH]; intros w; [reflexivity|].
  cbn [retryLoop iterations]. unfold bind at 1. unfold iteration, bind.
  destruct (SendRequest env reqData retry sleep w) as [[response|e] w1]; [|done].
  destruct (GenerateReport env output reqData response w1) as [[[]|e] w2]; [|done].
  apply IH.
Qed.

Lemma iterations_app (n m : nat) (w wn : World) :
  iterations env n output reqData retry sleep w = (Ok tt, wn) ->
  iterations env (n + m) output reqData retry sleep w
  = iterations env m output reqData retry sleep wn.
Proof.
  revert w; induction n as [|n IH]; intros w.
  - by intros [= <-].
  - cbn [iterations Nat.add]. unfold bind.
    destruct (iteration env output reqData retry sleep w) as [[[]|e] w1]; [|done].
    apply IH.
Qed.

Lemma iteration_Ok_inv (w w' : World) :
  iteration env output reqData retry sleep w = (Ok tt, w') ->
  exists response w1 req,
    SendRequest env reqData retry sleep w = (Ok response, w1)
    /\ trace w' = trace w ++ [EvSend req; EvCreate (writtenName env output (w1, response));
                               EvSleep (time.Duration_mul sleep time.Second)]
    /\ dom (files w') = dom (files w) ∪ {[ writtenName env output (w1, response) ]}
    /\ stdout w' = stdout w.
Proof.
  unfold iteration. intros H.
  apply bind_Ok_inv in H as (response & w1 & HS & H).
  apply bind_Ok_inv in H as ([] & w2 & HG & Heq). injection Heq as <-.
  destruct (SendRequest_frame _ _ _ _ _ _ _ HS) as (Hf & Ho & _ & _ & Ht).
  destruct (Ht eq_refl) as [req Hreq].
  apply GenerateReport_ok in HG as (responseBody & w3 & _ & Hf2 & Ho2 & Ht2).
  exists response, w1, req. split; [done|].
  unfold time.Sleep, log, writtenName; cbn [files stdout trace fst snd].
  rewrite Hf2, Ho2, Ht2, Hreq, Hf, Ho, dom_insert_L, <- !app_assoc.
  repeat split. apply union_comm_L.
Qed.

Lemma iterations_Ok_inv (n : nat) (w w' : World) :
  iterations env n output reqData retry sleep w = (Ok tt, w') ->
  exists writes : list (World * http.Response),
    length writes = n
    /\ Forall (fun p => exists w0,
                 SendRequest env reqData retry sleep w0 = (Ok p.2, p.1)) writes
    /\ length (sends (trace w')) = (length (sends (trace w)) + n)%nat
    /\ creates (trace w') = creates (trace w) ++ map (writtenName env output) writes
    /\ dom (files w') = dom (files w) ∪ list_to_set (map (writtenName env output) writes)
    /\ stdout w' = stdout w.
Proof.
  revert w; induction n as [|n IH]; intros w.
  - intros [= <-]. exists []. cbn [length map list_to_set]. rewrite app_nil_r.
    rewrite union_empty_r_L. repeat split; first [done | lia].
  - cbn [iterations]. intros H.
    apply bind_Ok_inv in H as ([] & w1 & H1 & H).
    apply iteration_Ok_inv in H1 as (response & ws & req & HS & Ht & Hd & Ho).
    apply IH in H as (writes & Hlen & Hall & Hs & Hc & Hd' & Ho').
    exists ((ws, response) :: writes). cbn [length map list_to_set].
    rewrite Hs, Hc, Hd', Ho', Ht, Hd, Ho, sends_app, creates_app, length_app, <- app_assoc.
    change (sends [EvSend req; EvCreate (writtenName env output (ws, response));
                   EvSleep (time.Duration_mul sleep time.Second)]) with [req].
    change (creates [EvSend req; EvCreate (writtenName env output (ws, response));
                     EvSleep (time.Duration_mul sleep time.Second)])
      with [writtenName env output (ws, response)].
    cbn [length app].
    split; [by rewrite Hlen|]. split; [constructor; [by exists w|done]|].
    split; [lia|]. split; [done|]. split; [by rewrite union_assoc_L|done].
Qed.

End RetryLoop.

Lemma splitFirst_space_Some (s method url : string) :
  splitFirst " " s = Some (method, url) ->
  s = method +:+ " " +:+ url /\ hasSpace method = false.
Proof.
  revert method; induction s as [|c s IH]; intros method; [done|].
  unfold hasSpace in *. cbn [splitFirst strings.HasPrefix].
  destruct (Ascii.eqb " " c) eqn:Ec.
  - apply Ascii.eqb_eq in Ec; subst c. destruct s; intros [= <- <-]; done.
  - destruct (splitFirst " " s) as [[a b]|]; [|done].
    intros [= <- <-]. destruct (IH a eq_refl) as [-> Ha].
    split; [done|]. cbn [list_ascii_of_string existsb]. by rewrite Ec, Ha.
Qed.

Lemma splitFirst_absent (sep line : string) :
  (forall k, ~ occursAt sep line k) -> splitFirst sep line = None.
Proof.
  intros H. destruct (splitFirst sep line) as [[a b]|] eqn:E; [|done].
  apply splitFirst_Some in E as [-> _].
  exfalso. apply (H (String.length a)). unfold occursAt.
  rewrite slice_from_app. apply HasPrefix_app.
Qed.

Lemma afterBlank_no_blank (ls : list string) :
  Forall (fun l => l <> "") ls -> afterBlank ls = [].
Proof.
  induction 1 as [|l ls Hl _ IH]; [done|]. cbn [afterBlank].
  apply String.eqb_neq in Hl. by rewrite Hl.
Qed.

Lemma afterBlank_blank_last (hs : list string) :
  Forall (fun l => l <> "") hs -> afterBlank (hs ++ [""]) = [].
Proof.
  induction 1 as [|l ls Hl _ IH]; [done|]. cbn [afterBlank app].
  apply String.eqb_neq in Hl. by rewrite Hl.
Qed.

Lemma main_parse_error (env : Env) (flags : Flags) (w : World) (content : string) (e : error) :
  files w !! source flags = Some content ->
  parseContent content = Err e ->
  trace (main env flags w) = trace w /\ files (main env flags w) = files w.
Proof.
  intros Hfile Hparse. unfold main, ReadHTTPFile.
  destruct (_ || _)%bool; [done|]. by rewrite Hfile, Hparse.
Qed.

(** ** The claims about the parser *)

(** C1, as amended.  Parsing the bytes of a file fails exactly when the file
    has a first line without a space character, or when some line has
    [MaxScanTokenSize] bytes or more; a first line without a space that fits
    the scanner's buffer fails with the invalid-request-line error; and when
    parsing fails, [main] sends no request and writes no file. *)
Theorem C1_parse_fails_iff (content : string) :
  (is_err (parseContent content) = true <->
     (exists first rest, lines content = first :: rest /\ hasSpace first = false)
     \/ tooLong content = true)
  /\ (forall raw rest,
        rawLines content = raw :: rest -> longLine raw = false ->
        hasSpace (bufio.dropCR raw) = false ->
        parseContent content = Err ErrInvalidRequestLine)
  /\ (forall env flags w e,
        files w !! source flags = Some content ->
        parseContent content = Err e ->
        trace (main env flags w) = trace w /\ files (main env flags w) = files w).
Proof.
  split; [split|split].
  - destruct (parseContent content) as [r|e] eqn:E; [done|]. intros _.
    apply parseContent_Err_inv in E as [(raw & rest & Hraw & _ & Hsp & _)|[Ht _]].
    + left. exists (bufio.dropCR raw), (map bufio.dropCR rest).
      unfold lines. by rewrite Hraw.
    + by right.
  - rewrite parseContent_parseSpec. unfold parseSpec, lines.
    intros [(first & rest & Hl & Hsp)|Ht].
    + destruct (rawLines content) as [|raw raws]; [done|].
      injection Hl as <- <-. destruct (longLine raw); [done|].
      by rewrite (splitFirst_no_space _ Hsp).
    + destruct (rawLines content) as [|raw raws] eqn:E.
      { unfold tooLong in Ht. by rewrite E in Ht. }
      destruct (longLine raw); [done|].
      destruct (splitFirst " " (bufio.dropCR raw)) as [[m u]|]; [|done].
      by rewrite Ht.
  - intros raw rest Hraw Hl Hsp. rewrite parseContent_parseSpec. unfold parseSpec.
    by rewrite Hraw, Hl, (splitFirst_no_space _ Hsp).
  - intros env flags w e. apply main_parse_error.
Qed.

Lemma C1_parse_fails_iff_witness :
  parseContent "GET" = Err ErrInvalidRequestLine
  /\ trace (main quickEnv (sampleFlags 3 0)
              {| files := {[ "t.http" := "GET" ]}; stdout := []; trace := [] |}) = [].
Proof.
  destruct (C1_parse_fails_iff "GET") as (_ & Hline & Hmain).
  assert (H : parseContent "GET" = Err ErrInvalidRequestLine)
    by (apply (Hline "GET" []); reflexivity).
  split; [exact H|].
  apply (Hmain quickEnv (sampleFlags 3 0)
           {| files := {[ "t.http" := "GET" ]}; stdout := []; trace := [] |}
           ErrInvalidRequestLine); [reflexivity|exact H].
Defined.

(** A line of [MaxScanTokenSize] bytes stops the scanner. *)
Example parse_long_line : parseContent longFile = Err ErrTooLong.
Proof. vm_compute. reflexivity. Qed.

(** C1 as stated does not hold.  A first line of three tokens is parsed,
    and a first line whose two tokens are separated by a tab is refused. *)
Lemma C1_counterexample :
  (length (Fields (firstLine "GET http://x/y z")) <> 2%nat
   /\ is_err (parseContent "GET http://x/y z") = false)
  /\ (length (Fields (firstLine ("GET" +:+ String "009" "http://x/y"))) = 2%nat
      /\ is_err (parseContent ("GET" +:+ String "009" "http://x/y")) = true).
Proof. vm_compute. repeat split; congruence. Qed.

(** C7.  When the first line of the file contains a space, it is a method
    without a space, one space, and a URL; a file without an over-long line
    is parsed, and whenever the file is parsed the method and the URL of the
    result are these two texts, the URL with every further space. *)
Theorem C7_method_and_url (content first : string) (rest : list string) :
  lines content = first :: rest ->
  hasSpace first = true ->
  exists method url,
    first = method +:+ " " +:+ url
    /\ hasSpace method = false
    /\ (tooLong content = false -> exists r, parseContent content = Ok r)
    /\ (forall r, parseContent content = Ok r -> Method r = method /\ URL r = url).
Proof.
  intros Hlines Hsp.
  destruct (splitFirst_has_space first Hsp) as (method & url & Hsplit).
  destruct (splitFirst_space_Some _ _ _ Hsplit) as [Hfirst Hm].
  exists method, url. split; [done|]. split; [done|]. split.
  - intros Ht. eexists. by apply (parseContent_ok content first method url rest).
  - intros r Hr.
    apply parseContent_Ok_inv in Hr as [[Hnil _]|(f & rs & m & u & Hl & Hs & _ & ->)];
      [congruence|].
    rewrite Hlines in Hl. injection Hl as <- <-.
    rewrite Hsplit in Hs. by injection Hs as <- <-.
Qed.

Lemma C7_method_and_url_witness :
  exists method url,
    "GET http://x/y?q=a b c" = method +:+ " " +:+ url
    /\ hasSpace method = false
    /\ (tooLong "GET http://x/y?q=a b c" = false ->
        exists r, parseContent "GET http://x/y?q=a b c" = Ok r)
    /\ (forall r, parseContent "GET http://x/y?q=a b c" = Ok r ->
                  Method r = method /\ URL r = url).
Proof.
  apply (C7_method_and_url "GET http://x/y?q=a b c" "GET http://x/y?q=a b c" []);
    reflexivity.
Defined.

(** C6.  When the first line of the file contains a space: a file without an
    over-long line is parsed, and whenever the file is parsed the headers of
    the result are the table built by going through the lines after the
    first one, up to and excluding the first empty line, in order.  A line
    with the separator [": "] writes the text before the separator's first
    occurrence as name and the text after it as value, replacing an earlier
    value of that name; a line without the separator changes nothing. *)
Theorem C6_headers (content first : string) (rest : list string) :
  lines content = first :: rest ->
  hasSpace first = true ->
  (tooLong content = false -> exists r, parseContent content = Ok r)
  /\ (forall r, parseContent content = Ok r ->
        Headers r = fold_left addHeader (headerLines rest) ∅)
  /\ (forall headers name value,
        (forall k, (k < String.length name)%nat ->
                   ~ occursAt ": " (name +:+ ": " +:+ value) k) ->
        addHeader headers (name +:+ ": " +:+ value) = <[name := value]> headers)
  /\ (forall headers line,
        (forall k, ~ occursAt ": " line k) -> addHeader headers line = headers).
Proof.
  intros Hlines Hsp.
  destruct (splitFirst_has_space first Hsp) as (method & url & Hsplit).
  split; [|split; [|split]].
  - intros Ht. eexists. by apply (parseContent_ok content first method url rest).
  - intros r Hr.
    apply parseContent_Ok_inv in Hr as [[Hnil _]|(f & rs & m & u & Hl & Hs & _ & ->)];
      [congruence|].
    rewrite Hlines in Hl. by injection Hl as <- <-.
  - intros headers name value Hfirst. unfold addHeader.
    by rewrite (splitFirst_first ": " name value Hfirst).
  - intros headers line Habsent. unfold addHeader.
    by rewrite (splitFirst_absent ": " line Habsent).
Qed.

Lemma C6_headers_witness :
  exists r, parseContent headersFile = Ok r /\ Headers r = <["A" := "2: 3"]> ∅.
Proof.
  destruct (C6_headers headersFile "POST http://x/y" ["A: 1"; "garbage"; "A: 2: 3"; ""; "B: not a header"]
              eq_refl eq_refl) as (Hex & Hh & _).
  destruct (Hex eq_refl) as [r Hr]. exists r. split; [exact Hr|].
  rewrite (Hh r Hr). vm_compute. reflexivity.
Defined.

(** C8, as amended.  Whenever a file is parsed, the body of the result is
    the lines after the first empty line joined with a line feed, nothing
    added at the end.  A file whose first line contains a space and which has no
    over-long line is parsed, and its body is empty when no empty line
    follows the first line and when the empty line is the last line. *)
Theorem C8_body (content : string) :
  (forall r, parseContent content = Ok r ->
             Body r = strings.Join (afterBlank (lines content)) nl)
  /\ (forall first rest,
        lines content = first :: rest -> hasSpace first = true ->
        tooLong content = false ->
        exists r, parseContent content = Ok r
                  /\ (Forall (fun l => l <> "") rest -> Body r = "")
                  /\ (forall hs, rest = hs ++ [""] -> Forall (fun l => l <> "") hs ->
                                 Body r = "")).
Proof.
  split.
  - intros r Hr.
    apply parseContent_Ok_inv in Hr as [[-> ->]|(f & rs & m & u & -> & Hs & _ & ->)];
      [done|].
    cbn [Body afterBlank]. destruct (String.eqb f "") eqn:E; [|done].
    apply String.eqb_eq in E; by subst f.
  - intros first rest Hlines Hsp Ht.
    destruct (splitFirst_has_space first Hsp) as (method & url & Hsplit).
    eexists. split; [by apply (parseContent_ok content first method url rest)|].
    cbn [Body]. unfold specBody. split.
    + intros Hall. by rewrite afterBlank_no_blank.
    + intros hs -> Hall. by rewrite afterBlank_blank_last.
Qed.

Lemma C8_body_witness :
  (exists r, parseContent bodyFile = Ok r
             /\ Body r = "hello" +:+ nl +:+ nl +:+ "world")
  /\ (exists r, parseContent ("PUT http://x/y" +:+ nl +:+ "A: 1" +:+ nl) = Ok r
                /\ Body r = "").
Proof.
  split.
  - exists {| Method := "PUT"; URL := "http://x/y"; Headers := <["A" := "1"]> ∅;
              Body := "hello" +:+ nl +:+ nl +:+ "world" |}.
    assert (H : parseContent bodyFile
                = Ok {| Method := "PUT"; URL := "http://x/y"; Headers := <["A" := "1"]> ∅;
                        Body := "hello" +:+ nl +:+ nl +:+ "world" |})
      by (vm_compute; reflexivity).
    split; [exact H|]. rewrite (proj1 (C8_body bodyFile) _ H). reflexivity.
  - destruct (proj2 (C8_body ("PUT http://x/y" +:+ nl +:+ "A: 1" +:+ nl))
                "PUT http://x/y" ["A: 1"] eq_refl eq_refl eq_refl) as (r & Hr & Hnone & _).
    exists r. split; [exact Hr|]. apply Hnone. repeat constructor; discriminate.
Defined.

(** C8 as stated does not hold: a file that ends before any empty line
    fails to parse when its first line holds no space, and when one of its
    lines is too long for the scanner. *)
Lemma C8_counterexample :
  (Forall (fun l => l <> "") (lines "GET")
   /\ parseContent "GET" = Err ErrInvalidRequestLine)
  /\ (Forall (fun l => l <> "") (lines longFile)
      /\ hasSpace (firstLine longFile) = true
      /\ parseContent longFile = Err ErrTooLong).
Proof.
  assert (Hlong : forallb (fun l => negb (String.eqb l "")) (lines longFile) = true)
    by (vm_compute; reflexivity).
  split; [split|split; [|split]].
  - repeat constructor; discriminate.
  - reflexivity.
  - apply List.Forall_forall. intros l Hin ->.
    rewrite forallb_forall in Hlong. by specialize (Hlong "" Hin).
  - vm_compute. reflexivity.
  - vm_compute. reflexivity.
Qed.

(** C10.  A file of zero bytes is parsed without error: the scanner yields
    no first line, so the request line is not checked, and the result has an
    empty method, an empty URL, no header and an empty body. *)
Theorem C10_empty_file :
  bufio.Scan (bufio.NewScanner "") = (None, bufio.NewScanner "")
  /\ parseContent "" = Ok {| Method := ""; URL := ""; Headers := ∅; Body := "" |}
  /\ (forall path fs out tr,
        ReadHTTPFile path {| files := <[path := ""]> fs; stdout := out; trace := tr |}
        = (Ok {| Method := ""; URL := ""; Headers := ∅; Body := "" |},
           {| files := <[path := ""]> fs; stdout := out; trace := tr |})).
Proof.
  repeat split.
  intros path fs out tr. unfold ReadHTTPFile; cbn [files].
  by rewrite lookup_insert_eq.
Qed.

(** ** The claims about the driver and the report writer *)

(** C2, as amended.  When the file is parsed, the iterations before it
    succeed and one iteration fails, in the request or in the report, [main]
    ends there however many iterations were still to come: the world it
    leaves is the world of the failure with the error printed, so no later
    request is sent, no later file is created and no later sleep is taken.
    The failing iteration itself prints nothing else, sends at most its
    request and creates at most its report file; when it is the request that
    fails, it creates and changes no file. *)
Theorem C2_abort_on_failure (env : Env) (flags : Flags) (reqData : RequestData)
    (before : nat) (w wj wf : World) (e : error) :
  source flags <> "" -> output flags <> "" ->
  ReadHTTPFile (source flags) w = (Ok reqData, w) ->
  (before < Z.to_nat (effectiveRetry (retry flags)))%nat ->
  iterations env before (output flags) reqData
    (effectiveRetry (retry flags)) (effectiveSleep (sleep flags)) w = (Ok tt, wj) ->
  iteration env (output flags) reqData
    (effectiveRetry (retry flags)) (effectiveSleep (sleep flags)) wj = (Err e, wf) ->
  main env flags w = fmt.Println (Error e) wf
  /\ (stdout wf = stdout wj
      /\ exists evs, trace wf = trace wj ++ evs
                     /\ (length (sends evs) <= 1)%nat /\ (length (creates evs) <= 1)%nat)
  /\ (forall e' w1,
        SendRequest env reqData (effectiveRetry (retry flags))
          (effectiveSleep (sleep flags)) wj = (Err e', w1) ->
        e = e' /\ wf = w1 /\ files wf = files wj
        /\ creates (trace wf) = creates (trace wj)).
Proof.
  intros Hsrc Hout Hread Hlt Hbefore Hfail. split; [|split].
  - unfold main. apply String.eqb_neq in Hsrc, Hout. rewrite Hsrc, Hout, Hread.
    cbn [orb]. rewrite retryLoop_iterations.
    replace (Z.to_nat (effectiveRetry (retry flags)))
      with (before + S (Z.to_nat (effectiveRetry (retry flags)) - S before))%nat by lia.
    rewrite (iterations_app _ _ _ _ _ _ _ _ _ Hbefore).
    cbn [iterations]. unfold bind. by rewrite Hfail.
  - by apply (iteration_Err_frame _ _ _ _ _ _ _ _ Hfail).
  - intros e' w1 HS.
    destruct (SendRequest_frame _ _ _ _ _ _ _ HS) as (Hf & _ & Hc & _).
    revert Hfail. unfold iteration, bind. rewrite HS. intros [= <- <-]. done.
Qed.

Lemma C2_abort_on_failure_witness :
  main secondFailsEnv (sampleFlags 5 0) sampleWorld
  = fmt.Println "connection refused"
      (iteration secondFailsEnv "out" sampleRequest 5 0
         (iterations secondFailsEnv 1 "out" sampleRequest 5 0 sampleWorld).2).2
  /\ length (sends (trace (main secondFailsEnv (sampleFlags 5 0) sampleWorld))) = 2%nat
  /\ creates (trace (main secondFailsEnv (sampleFlags 5 0) sampleWorld))
     = ["out|1700000000-status:200.txt"].
Proof.
  destruct (C2_abort_on_failure secondFailsEnv (sampleFlags 5 0) sampleRequest 1 sampleWorld
              (iterations secondFailsEnv 1 "out" sampleRequest 5 0 sampleWorld).2
              (iteration secondFailsEnv "out" sampleRequest 5 0
                 (iterations secondFailsEnv 1 "out" sampleRequest 5 0 sampleWorld).2).2
              (ErrEnv "connection refused"))
    as (Hrun & _ & Hsend);
    [done|done|vm_compute; reflexivity|vm_compute; lia
    |vm_compute; reflexivity|vm_compute; reflexivity|].
  split; [exact Hrun|].
  destruct (Hsend (ErrEnv "connection refused")
              (SendRequest secondFailsEnv sampleRequest 5 0
                 (iterations secondFailsEnv 1 "out" sampleRequest 5 0 sampleWorld).2).2)
    as (_ & _ & _ & Hcreates); [vm_compute; reflexivity|].
  rewrite Hrun. split; vm_compute; reflexivity.
Defined.

(** C2 as stated does not hold: when the report write fails while the body
    of the response is read, the report file of the failing iteration has
    been created and holds the request part. *)
Lemma C2_counterexample :
  (iteration brokenBodyEnv "out" sampleRequest 1 0 sampleWorld).1
  = Err (ErrEnv "unexpected EOF")
  /\ files sampleWorld !! "out|1700000000-status:200.txt" = None
  /\ files (main brokenBodyEnv (sampleFlags 1 0) sampleWorld) !! "out|1700000000-status:200.txt"
     = Some ("Request Method: GET" +:+ nl +:+ "Request URL: http://x/y" +:+ nl +:+ nl
               +:+ "Request Headers:" +:+ nl +:+ "A: 1" +:+ nl
               +:+ nl +:+ "Request Body:" +:+ nl +:+ "hi" +:+ nl +:+ nl)
  /\ stdout (main brokenBodyEnv (sampleFlags 1 0) sampleWorld) = ["unexpected EOF"].
Proof. vm_compute. repeat split; reflexivity. Qed.

(** C3, as amended.  When the file is parsed and every iteration succeeds,
    [main] performs as many iterations as the effective retry count says
    (none for a negative count): it sends that many requests and creates
    that many reports, in order, the report of an iteration under the name
    built from the output prefix, the clock read in the world the response
    arrived in, and the status code; nothing is printed.  The files that
    exist afterwards are the earlier ones and the reports, so the run leaves
    one new file per iteration when the names are distinct and new. *)
Theorem C3_reports (env : Env) (flags : Flags) (reqData : RequestData) (w w' : World) :
  source flags <> "" -> output flags <> "" ->
  ReadHTTPFile (source flags) w = (Ok reqData, w) ->
  iterations env (Z.to_nat (effectiveRetry (retry flags))) (output flags) reqData
    (effectiveRetry (retry flags)) (effectiveSleep (sleep flags)) w = (Ok tt, w') ->
  main env flags w = w'
  /\ exists writes : list (World * http.Response),
      length writes = Z.to_nat (effectiveRetry (retry flags))
      /\ Forall (fun p => exists w0,
                   SendRequest env reqData (effectiveRetry (retry flags))
                     (effectiveSleep (sleep flags)) w0 = (Ok p.2, p.1)) writes
      /\ length (sends (trace w')) = (length (sends (trace w)) + length writes)%nat
      /\ creates (trace w')
         = creates (trace w) ++ map (writtenName env (output flags)) writes
      /\ dom (files w')
         = dom (files w) ∪ list_to_set (map (writtenName env (output flags)) writes)
      /\ stdout w' = stdout w
      /\ (NoDup (map (writtenName env (output flags)) writes) ->
          (forall name, name ∈ map (writtenName env (output flags)) writes ->
                        files w !! name = None) ->
          size (files w') = (size (files w) + length writes)%nat).
Proof.
  intros Hsrc Hout Hread Hrun. split.
  - unfold main. apply String.eqb_neq in Hsrc, Hout. rewrite Hsrc, Hout, Hread.
    cbn [orb]. by rewrite retryLoop_iterations, Hrun.
  - apply iterations_Ok_inv in Hrun as (writes & Hlen & Hall & Hs & Hc & Hd & Ho).
    exists writes. rewrite Hlen. repeat split; try done.
    intros Hnodup Hnew.
    rewrite <- !size_dom, Hd, size_union, size_list_to_set, length_map by
      first [done | intros name H1 H2; apply elem_of_list_to_set in H2;
                     apply elem_of_dom in H1 as [x Hx]; rewrite (Hnew name H2) in Hx; done].
    by rewrite Hlen.
Qed.

Lemma C3_reports_witness :
  size (files (main tickingEnv (sampleFlags 3 0) sampleWorld)) = 4%nat
  /\ creates (trace (main tickingEnv (sampleFlags 3 0) sampleWorld))
     = ["out|1700000001-status:200.txt"; "out|1700000004-status:200.txt";
        "out|1700000007-status:200.txt"].
Proof.
  destruct (C3_reports tickingEnv (sampleFlags 3 0) sampleRequest sampleWorld
              (iterations tickingEnv 3 "out" sampleRequest 3 0 sampleWorld).2)
    as [Hmain _]; [done|done|vm_compute; reflexivity|vm_compute; reflexivity|].
  rewrite Hmain. split; vm_compute; reflexivity.
Defined.

(** C3 as stated does not hold: with a server that answers within the
    second, two iterations write the same file, and the run that performed
    two iterations without an error leaves one report. *)
Lemma C3_counterexample :
  stdout (main quickEnv (sampleFlags 2 0) sampleWorld) = []
  /\ length (sends (trace (main quickEnv (sampleFlags 2 0) sampleWorld))) = 2%nat
  /\ creates (trace (main quickEnv (sampleFlags 2 0) sampleWorld))
     = ["out|1700000000-status:200.txt"; "out|1700000000-status:200.txt"]
  /\ size (files (main quickEnv (sampleFlags 2 0) sampleWorld))
     = (size (files sampleWorld) + 1)%nat.
Proof. vm_compute. repeat split; reflexivity. Qed.

(** C4.  A run with [-retry=0 -sleep=0] is the run with [-retry=1 -sleep=0]:
    before the loop a retry count of zero is replaced by the default 1 and a
    sleep of zero by the default 0. *)
Theorem C4_zero_means_default (env : Env) (source output : string) (w : World) :
  main env {| source := source; output := output; retry := 0; sleep := 0 |} w
  = main env {| source := source; output := output; retry := 1; sleep := 0 |} w
  /\ effectiveRetry 0 = 1%Z /\ effectiveSleep 0 = 0%Z
  /\ effectiveRetry 1 = 1%Z.
Proof. repeat split. Qed.

(** C5.  In the file a successful report write leaves under the report's
    name, the text after "Request Body:" and its line end is the body of the
    request, byte for byte, followed by one empty line, and the text after
    "Response Body:" and its line end is the drained body of the response,
    followed by a line end.  The write succeeds when the body can be read
    and the file system does not fail. *)
Theorem C5_report_round_trip (env : Env) (output : string) (reqData : RequestData)
    (response : http.Response) (w : World) :
  (forall w',
     GenerateReport env output reqData response w = (Ok tt, w') ->
     exists responseBody block,
       http.Body response = Ok responseBody
       /\ files w' !! reportName output (env_Unix env w) (http.StatusCode response)
          = Some ("Request Method: " +:+ Method reqData +:+ nl
                    +:+ "Request URL: " +:+ URL reqData +:+ nl +:+ nl
                    +:+ "Request Headers:" +:+ nl +:+ block
                    +:+ nl +:+ "Request Body:" +:+ nl +:+ Body reqData +:+ nl +:+ nl
                    +:+ "Response Status: " +:+ http.Status response +:+ nl
                    +:+ "Response Body:" +:+ nl +:+ responseBody +:+ nl))
  /\ (forall responseBody,
        (forall w0 path, env_Create env w0 path = None) ->
        (forall w0 file data, env_Write env w0 file data = None) ->
        http.Body response = Ok responseBody ->
        exists w', GenerateReport env output reqData response w = (Ok tt, w')).
Proof.
  split.
  - intros w' H. apply GenerateReport_ok in H as (responseBody & w1 & HB & Hf & _).
    exists responseBody, (headerBlock (env_range env w1 (Headers reqData))).
    split; [done|]. rewrite Hf, lookup_insert_eq. reflexivity.
  - intros responseBody HC HW HB. by apply (GenerateReport_succeeds _ _ _ _ responseBody).
Qed.

Lemma C5_report_round_trip_witness :
  exists w',
    GenerateReport quickEnv "out" sampleRequest okResponse sampleWorld = (Ok tt, w')
    /\ files w' !! "out|1700000000-status:200.txt"
       = Some ("Request Method: GET" +:+ nl +:+ "Request URL: http://x/y" +:+ nl +:+ nl
                 +:+ "Request Headers:" +:+ nl +:+ "A: 1" +:+ nl
                 +:+ nl +:+ "Request Body:" +:+ nl +:+ "hi" +:+ nl +:+ nl
                 +:+ "Response Status: 200 OK" +:+ nl
                 +:+ "Response Body:" +:+ nl +:+ "pong" +:+ nl).
Proof.
  destruct (C5_report_round_trip quickEnv "out" sampleRequest okResponse sampleWorld)
    as [Hshape Hruns].
  destruct (Hruns "pong") as [w' Hw']; [done|done|done|].
  exists w'. split; [exact Hw'|].
  destruct (Hshape w' Hw') as (responseBody & block & HB & _).
  assert (Hw : w' = (GenerateReport quickEnv "out" sampleRequest okResponse sampleWorld).2)
    by (by rewrite Hw').
  rewrite Hw. vm_compute. reflexivity.
Defined.

(** C9.  [SendRequest] does not use its [retryCount] and [sleepSec]
    arguments: for the same request data and the same world it builds and
    sends the same request and returns the same result whatever they are. *)
Theorem C9_SendRequest_ignores_retry (env : Env) (reqData : RequestData)
    (retryCount sleepSec retryCount' sleepSec' : Z) (w : World) :
  SendRequest env reqData retryCount sleepSec w
  = SendRequest env reqData retryCount' sleepSec' w.
Proof. reflexivity. Qed.

(** * Further properties *)

(** ** The parser and the shape of the file *)

Lemma rawLines_snoc_LF (s : string) :
  s <> "" -> endsWith LF s = false -> rawLines (s +:+ nl) = rawLines s.
Proof.
  induction s as [|c s IH]; [done|]. intros _ Hend.
  destruct s as [|c' s].
  - cbn in Hend. cbn. unfold nl. cbn. by rewrite Hend.
  - change (String c (String c' s) +:+ nl) with (String c (String c' s +:+ nl)).
    cbn [rawLines]. rewrite IH; [done|done|exact Hend].
Qed.

(** Two files with the same lines and no over-long line parse alike. *)
Lemma parseContent_lines_ext (a b : string) :
  lines a = lines b -> tooLong a = false -> tooLong b = false ->
  parseContent a = parseContent b.
Proof.
  intros Hl Ha Hb. rewrite !parseContent_parseSpec. unfold parseSpec.
  rewrite Ha, Hb, Hl. unfold lines, tooLong in *.
  destruct (rawLines a) as [|ra la], (rawLines b) as [|rb lb]; try done.
  cbn [map existsb] in *. injection Hl as Hr _.
  apply orb_false_iff in Ha as [-> _]. apply orb_false_iff in Hb as [-> _].
  by rewrite Hr.
Qed.

(** X1.  The line feed after the last line is optional: a non-empty file
    that does not end in a line feed is parsed, or refused, exactly as the
    same file with a line feed added at the end. *)
Theorem final_line_feed_optional (s : string) :
  s <> "" -> endsWith LF s = false -> parseContent (s +:+ nl) = parseContent s.
Proof.
  intros Hs Hend. rewrite !parseContent_parseSpec. unfold parseSpec, tooLong, lines.
  by rewrite (rawLines_snoc_LF s Hs Hend).
Qed.

Lemma final_line_feed_optional_witness :
  parseContent (bodyFile +:+ nl) <> parseContent bodyFile
  /\ parseContent (headersFile +:+ nl) = parseContent headersFile.
Proof.
  split; [vm_compute; congruence|].
  apply (final_line_feed_optional headersFile); [done|reflexivity].
Defined.

Lemma dropCR_cons (c : ascii) (l : string) :
  Ascii.eqb c CR = false -> bufio.dropCR (String c l) = String c (bufio.dropCR l).
Proof. intros H. destruct l; cbn; [by rewrite H|done]. Qed.

Lemma dropCR_id (l : string) : hasByte CR l = false -> bufio.dropCR l = l.
Proof.
  induction l as [|c l IH]; [done|]. unfold hasByte in *.
  cbn [list_ascii_of_string existsb]. intros H. apply orb_false_iff in H as [Hc Hl].
  rewrite Ascii.eqb_sym in Hc. rewrite dropCR_cons by done. by rewrite IH.
Qed.

Lemma length_dropCR (l : string) :
  (String.length (bufio.dropCR l) <= String.length l)%nat.
Proof.
  induction l as [|c l IH]; [done|]. destruct l as [|c' l].
  - cbn. destruct (Ascii.eqb c CR); cbn; lia.
  - change (bufio.dropCR (String c (String c' l)))
      with (String c (bufio.dropCR (String c' l))).
    cbn [String.length] in *. lia.
Qed.

Lemma rawLines_no_CR (s : string) :
  hasByte CR s = false -> Forall (fun l => hasByte CR l = false) (rawLines s).
Proof.
  induction s as [|c s IH]; [constructor|]. unfold hasByte in *.
  cbn [list_ascii_of_string existsb rawLines]. intros H.
  apply orb_false_iff in H as [Hc Hs]. specialize (IH Hs).
  destruct (Ascii.eqb c LF); [by constructor|].
  destruct (rawLines s) as [|l ls]; [constructor; [cbn [list_ascii_of_string existsb]; by rewrite Hc|constructor]|].
  inversion IH as [|? ? Hl Hls]; subst. constructor; [|done].
  cbn [list_ascii_of_string existsb]. by rewrite Hc, Hl.
Qed.

Lemma lines_no_CR (s : string) : hasByte CR s = false -> lines s = rawLines s.
Proof.
  intros H. apply rawLines_no_CR in H. unfold lines.
  induction H as [|l ls Hl _ IH]; [done|]. cbn [map]. by rewrite IH, dropCR_id.
Qed.

Lemma lines_toCRLF (s : string) : hasByte CR s = false -> lines (toCRLF s) = rawLines s.
Proof.
  unfold lines. induction s as [|c s IH]; [done|]. unfold hasByte in *.
  cbn [list_ascii_of_string existsb toCRLF]. intros H.
  apply orb_false_iff in H as [Hc Hs]. specialize (IH Hs).
  rewrite Ascii.eqb_sym in Hc.
  cbn [rawLines]. destruct (Ascii.eqb c LF) eqn:E.
  - cbn [rawLines]. change (Ascii.eqb CR LF) with false. cbn [rawLines].
    rewrite Ascii.eqb_refl. cbn [map]. rewrite IH. reflexivity.
  - cbn [rawLines]. rewrite E.
    destruct (rawLines (toCRLF s)) as [|l ls], (rawLines s) as [|l' ls']; try done.
    + cbn. by rewrite Hc.
    + cbn [map] in *. injection IH as <- <-. by rewrite dropCR_cons.
Qed.

(** X2.  A file written with CR LF line ends is parsed as the same file
    written with LF line ends: when the file holds no carriage return,
    putting one before every line feed changes nothing in the result, as
    long as no line reaches the scanner's limit. *)
Theorem crlf_line_ends (s : string) :
  hasByte CR s = false -> tooLong (toCRLF s) = false ->
  parseContent (toCRLF s) = parseContent s.
Proof.
  intros Hcr Hshort. apply parseContent_lines_ext; [|done|].
  - by rewrite lines_toCRLF, lines_no_CR.
  - pose proof (lines_toCRLF s Hcr) as Hl. unfold lines, tooLong in *.
    revert Hl Hshort. generalize (rawLines (toCRLF s)) as ls', (rawLines s) as ls.
    induction ls' as [|l' ls' IH]; intros [|l ls]; try done.
    cbn [map existsb]. intros [= <- Hl] H. apply orb_false_iff in H as [H1 H2].
    rewrite (IH ls Hl H2), orb_false_r. unfold longLine in *.
    apply N.leb_gt in H1. apply N.leb_gt. pose proof (length_dropCR l'). lia.
Qed.

Lemma crlf_line_ends_witness :
  parseContent (toCRLF headersFile) = parseContent headersFile.
Proof. apply (crlf_line_ends headersFile); reflexivity. Defined.

(** ** Looking up a header *)

Lemma fold_addHeader_lookup (ls : list string) (headers : gmap string string)
    (name : string) :
  fold_left addHeader ls headers !! name =
    match lastHeader name ls with
    | Some v => Some v
    | None => headers !! name
    end.
Proof.
  revert headers; induction ls as [|l ls IH]; intros headers; [done|].
  cbn [fold_left lastHeader]. rewrite IH.
  destruct (lastHeader name ls) as [v|]; [done|].
  unfold addHeader. destruct (splitFirst ": " l) as [[k v]|]; [|done].
  destruct (String.eqb k name) eqn:E.
  - apply String.eqb_eq in E; subst k. by rewrite lookup_insert_eq.
  - apply String.eqb_neq in E. by rewrite lookup_insert_ne.
Qed.

Lemma lastHeader_Some (name value : string) (ls : list string) :
  lastHeader name ls = Some value ->
  exists l, In l ls /\ splitFirst ": " l = Some (name, value).
Proof.
  induction ls as [|l ls IH]; [done|]. cbn [lastHeader].
  destruct (lastHeader name ls) as [v|].
  - intros [= ->]. destruct (IH eq_refl) as (l' & Hin & Hs). exists l'. by split; [right|].
  - destruct (splitFirst ": " l) as [[k v]|] eqn:Hs; [|done].
    destruct (String.eqb k name) eqn:E; [|done].
    apply String.eqb_eq in E; subst k. intros [= ->]. exists l. by split; [left|].
Qed.

(** X3.  Looking a name up in the parsed headers gives the value of the
    last header line of that name, and nothing when no header line of the
    section, which ends before the first empty line, has that name. *)
Theorem header_lookup (content first : string) (rest : list string) (r : RequestData)
    (name : string) :
  lines content = first :: rest ->
  parseContent content = Ok r ->
  Headers r !! name = lastHeader name (headerLines rest).
Proof.
  intros Hlines Hr.
  apply parseContent_Ok_inv in Hr as [[Hnil _]|(f & rs & m & u & Hl & _ & _ & ->)];
    [congruence|].
  rewrite Hlines in Hl. injection Hl as <- <-. cbn [Headers]. unfold specHeaders.
  rewrite fold_addHeader_lookup. by destruct (lastHeader name (headerLines rest)).
Qed.

Lemma header_lookup_witness :
  exists r, parseContent headersFile = Ok r
            /\ Headers r !! "A" = Some "2: 3" /\ Headers r !! "B" = None.
Proof.
  assert (H : parseContent headersFile
              = Ok {| Method := "POST"; URL := "http://x/y";
                      Headers := <["A" := "2: 3"]> ∅; Body := "B: not a header" |})
    by (vm_compute; reflexivity).
  eexists. split; [exact H|].
  split; rewrite (header_lookup headersFile "POST http://x/y"
                    ["A: 1"; "garbage"; "A: 2: 3"; ""; "B: not a header"] _ _ eq_refl H);
    reflexivity.
Defined.

(** ** No field of the result spans two lines *)

Lemma rawLines_no_LF (s : string) : Forall (fun l => hasByte LF l = false) (rawLines s).
Proof.
  induction s as [|c s IH]; [constructor|]. cbn [rawLines].
  destruct (Ascii.eqb c LF) eqn:E; [by constructor|].
  rewrite Ascii.eqb_sym in E.
  destruct (rawLines s) as [|l ls].
  - constructor; [|constructor]. unfold hasByte. cbn [list_ascii_of_string existsb].
    by rewrite E.
  - inversion IH as [|? ? Hl Hls]; subst. constructor; [|done].
    unfold hasByte in *. cbn [list_ascii_of_string existsb]. by rewrite E, Hl.
Qed.

Lemma hasByte_dropCR (c : ascii) (l : string) :
  hasByte c l = false -> hasByte c (bufio.dropCR l) = false.
Proof.
  unfold hasByte. induction l as [|a l IH]; [done|].
  cbn [list_ascii_of_string existsb]. intros H. apply orb_false_iff in H as [Ha Hl].
  destruct l as [|a' l].
  - cbn. destruct (Ascii.eqb a CR); [done|]. cbn. by rewrite Ha.
  - change (bufio.dropCR (String a (String a' l)))
      with (String a (bufio.dropCR (String a' l))).
    cbn [list_ascii_of_string existsb]. by rewrite Ha, IH.
Qed.

Lemma hasByte_app (c : ascii) (a b : string) :
  hasByte c (a +:+ b) = (hasByte c a || hasByte c b)%bool.
Proof.
  unfold hasByte. induction a as [|x a IH]; [done|].
  change (String x a +:+ b) with (String x (a +:+ b)).
  cbn [list_ascii_of_string existsb]. by rewrite IH, orb_assoc.
Qed.

Lemma lines_no_LF (s : string) : Forall (fun l => hasByte LF l = false) (lines s).
Proof.
  unfold lines. pose proof (rawLines_no_LF s) as H.
  induction H as [|l ls Hl _ IH]; [constructor|].
  cbn [map]. constructor; [by apply hasByte_dropCR|done].
Qed.

Lemma splitFirst_no_byte (c : ascii) (sep l before after : string) :
  splitFirst sep l = Some (before, after) -> hasByte c l = false ->
  hasByte c before = false /\ hasByte c after = false.
Proof.
  intros Hs Hl. apply splitFirst_Some in Hs as [-> _].
  rewrite !hasByte_app in Hl. apply orb_false_iff in Hl as [H1 H2].
  by apply orb_false_iff in H2 as [_ H2].
Qed.

Lemma In_headerLines (l : string) (ls : list string) : In l (headerLines ls) -> In l ls.
Proof.
  induction ls as [|x ls IH]; [done|]. cbn [headerLines].
  destruct (String.eqb x ""); [done|]. intros [->|H]; [by left|right; by apply IH].
Qed.

(** X4.  Whatever the file, no line feed ends up in the method, the URL, a
    header name or a header value of a parsed request, and the method holds
    no space. *)
Theorem parsed_fields_within_a_line (content : string) (r : RequestData) :
  parseContent content = Ok r ->
  hasByte LF (Method r) = false /\ hasSpace (Method r) = false
  /\ hasByte LF (URL r) = false
  /\ (forall name value, Headers r !! name = Some value ->
        hasByte LF name = false /\ hasByte LF value = false).
Proof.
  intros Hr. pose proof (lines_no_LF content) as Hall.
  apply parseContent_Ok_inv in Hr as [[_ ->]|(f & rs & m & u & Hl & Hs & _ & ->)].
  - repeat split; try done.
  - rewrite Hl in Hall. inversion Hall as [|? ? Hf Hrs]; subst.
    destruct (splitFirst_no_byte LF _ _ _ _ Hs Hf) as [Hm Hu].
    apply splitFirst_space_Some in Hs as [_ Hsp]. cbn [Method URL Headers].
    split; [done|]. split; [done|]. split; [done|].
    intros name value H. unfold specHeaders in H.
    rewrite fold_addHeader_lookup, lookup_empty in H.
    destruct (lastHeader name (headerLines rs)) as [v|] eqn:E; [|done].
    injection H as ->. apply lastHeader_Some in E as (l & Hin & Hsl).
    apply In_headerLines in Hin. rewrite Forall_forall in Hrs.
    apply (splitFirst_no_byte LF _ _ _ _ Hsl). apply Hrs.
    by apply list_elem_of_In.
Qed.

Lemma parsed_fields_within_a_line_witness :
  exists r, parseContent headersFile = Ok r
            /\ hasByte LF (URL r) = false /\ hasSpace (Method r) = false.
Proof.
  assert (H : parseContent headersFile
              = Ok {| Method := "POST"; URL := "http://x/y";
                      Headers := <["A" := "2: 3"]> ∅; Body := "B: not a header" |})
    by (vm_compute; reflexivity).
  eexists. split; [exact H|].
  destruct (parsed_fields_within_a_line headersFile _ H) as (_ & Hsp & Hu & _).
  by split.
Defined.

(** ** Writing a request file *)

Lemma rawLines_line (l rest : string) :
  hasByte LF l = false -> rawLines (l +:+ nl +:+ rest) = l :: rawLines rest.
Proof.
  unfold hasByte. induction l as [|c l IH]; intros H.
  - reflexivity.
  - cbn [list_ascii_of_string existsb] in H. apply orb_false_iff in H as [Hc Hl].
    change (String c l +:+ nl +:+ rest) with (String c (l +:+ nl +:+ rest)).
    cbn [rawLines]. rewrite Ascii.eqb_sym in Hc. by rewrite Hc, (IH Hl).
Qed.

Lemma rawLines_unlines (ls : list string) (rest : string) :
  Forall (fun l => hasByte LF l = false) ls ->
  rawLines (unlines ls +:+ rest) = ls ++ rawLines rest.
Proof.
  induction 1 as [|l ls Hl _ IH]; [done|].
  cbn [unlines app]. rewrite !append_assoc, rawLines_line by done. by rewrite IH.
Qed.

Lemma Join_cons (c : ascii) (l : string) (ls : list string) (sep : string) :
  strings.Join (String c l :: ls) sep = String c (strings.Join (l :: ls) sep).
Proof. by destruct ls. Qed.

Lemma Join_rawLines (b : string) : strings.Join (rawLines b) nl = chomp b.
Proof.
  induction b as [|c b IH]; [done|]. cbn [rawLines].
  destruct b as [|c' b].
  - cbn. by destruct (Ascii.eqb c LF).
  - change (chomp (String c (String c' b))) with (String c (chomp (String c' b))).
    rewrite <- IH. destruct (rawLines (String c' b)) as [|l ls] eqn:E.
    { by apply rawLines_nil in E. }
    destruct (Ascii.eqb c LF) eqn:Ec; [|apply Join_cons].
    apply Ascii.eqb_eq in Ec; subst c. reflexivity.
Qed.

Lemma splitFirst_header (name value : string) :
  hasByte ":" name = false ->
  splitFirst ": " (name +:+ ": " +:+ value) = Some (name, value).
Proof.
  unfold hasByte. induction name as [|c k IH]; intros H.
  - cbn. by destruct value.
  - cbn [list_ascii_of_string existsb] in H. apply orb_false_iff in H as [Hc Hk].
    change (String c k +:+ ": " +:+ value) with (String c (k +:+ ": " +:+ value)).
    cbn [splitFirst strings.HasPrefix]. by rewrite Hc, (IH Hk).
Qed.

Lemma headerLines_written (ls rest : list string) :
  Forall (fun l => l <> "") ls -> headerLines (ls ++ "" :: rest) = ls.
Proof.
  induction 1 as [|l ls Hl _ IH]; [done|]. cbn [app headerLines].
  apply String.eqb_neq in Hl. by rewrite Hl, IH.
Qed.

Lemma afterBlank_written (ls rest : list string) :
  Forall (fun l => l <> "") ls -> afterBlank (ls ++ "" :: rest) = rest.
Proof.
  induction 1 as [|l ls Hl _ IH]; [done|]. cbn [app afterBlank].
  apply String.eqb_neq in Hl. by rewrite Hl, IH.
Qed.

Lemma fold_addHeader_written (hs : list (string * string)) (headers : gmap string string) :
  Forall (fun kv => hasByte ":" kv.1 = false) hs ->
  fold_left addHeader (map headerLine hs) headers
  = fold_left (fun h kv => <[kv.1 := kv.2]> h) hs headers.
Proof.
  intros H. revert headers. induction H as [|kv hs Hk _ IH]; intros headers; [done|].
  cbn [map fold_left]. rewrite IH. f_equal. unfold addHeader, headerLine.
  by rewrite (splitFirst_header _ _ Hk).
Qed.

Lemma fold_insert_list_to_map (hs : list (string * string)) :
  fold_left (fun h kv => <[kv.1 := kv.2]> h) hs (∅ : gmap string string)
  = list_to_map (rev hs).
Proof. rewrite <- fold_left_rev_right. reflexivity. Qed.

(** X5.  A request can be written down and read back.  Take a method
    without a space, a URL, header names without a colon, all of them and
    the header values free of line feeds, and a body; write the request
    line, one [name: value] line per header, an empty line and the body.
    When the file holds no carriage return and no over-long line, parsing it
    gives back the method, the URL, the headers (a later line of the same
    name replacing an earlier one) and the body without one final line
    feed. *)
Theorem render_parse (method url : string) (hs : list (string * string)) (body : string) :
  hasSpace method = false ->
  hasByte LF (method +:+ " " +:+ url) = false ->
  Forall (fun kv => hasByte ":" kv.1 = false /\ hasByte LF (headerLine kv) = false) hs ->
  hasByte CR (render method url hs body) = false ->
  tooLong (render method url hs body) = false ->
  parseContent (render method url hs body)
  = Ok {| Method := method; URL := url;
          Headers := list_to_map (rev hs); Body := chomp body |}.
Proof.
  intros Hm Hline Hhs Hcr Hshort.
  assert (Hl : lines (render method url hs body)
               = (method +:+ " " +:+ url) :: map headerLine hs ++ "" :: rawLines body).
  { rewrite lines_no_CR by done. unfold render.
    rewrite rawLines_line by done. f_equal.
    rewrite rawLines_unlines.
    - reflexivity.
    - apply Forall_map. eapply Forall_impl; [exact Hhs|]. by intros kv [_ H]. }
  assert (Hne : Forall (fun l => l <> "") (map headerLine hs)).
  { apply Forall_map. eapply Forall_impl; [exact Hhs|]. intros [k v] _.
    unfold headerLine; cbn. by destruct k. }
  rewrite (parseContent_ok _ _ method url _ Hl (splitFirst_space_app _ _ Hm) Hshort).
  unfold specHeaders, specBody.
  rewrite headerLines_written, afterBlank_written, Join_rawLines by done.
  rewrite fold_addHeader_written, fold_insert_list_to_map; [done|].
  eapply Forall_impl; [exact Hhs|]. by intros kv [H _].
Qed.

Lemma render_parse_witness :
  parseContent (render "POST" "http://x/y?q=a b" [("A", "1"); ("B", "2"); ("A", "3")]
                  ("hello" +:+ nl +:+ "world" +:+ nl))
  = Ok {| Method := "POST"; URL := "http://x/y?q=a b";
          Headers := <["A" := "3"]> (<["B" := "2"]> ∅);
          Body := "hello" +:+ nl +:+ "world" |}.
Proof.
  rewrite (render_parse "POST" "http://x/y?q=a b" [("A", "1"); ("B", "2"); ("A", "3")]
             ("hello" +:+ nl +:+ "world" +:+ nl));
    [vm_compute; reflexivity|reflexivity|reflexivity| |reflexivity|reflexivity].
  repeat constructor.
Defined.

(** ** What [SendRequest] sends *)

Lemma Header_Set_fold_meta (env : Env) (hs : list (string * string)) (req : http.Request) :
  let req' := fold_left (fun r kv => client.Header_Set env r kv.1 kv.2) hs req in
  http.ReqMethod req' = http.ReqMethod req
  /\ http.ReqURL req' = http.ReqURL req
  /\ http.ReqBody req' = http.ReqBody req
  /\ http.Header req'
     = fold_left (fun h kv => <[env_CanonicalHeaderKey env kv.1 := [kv.2]]> h) hs
         (http.Header req).
Proof.
  revert req; induction hs as [|kv hs IH]; intros req; [done|].
  cbn [fold_left]. destruct (IH (client.Header_Set env req kv.1 kv.2)) as (H1 & H2 & H3 & H4).
  cbv zeta. by rewrite H1, H2, H3, H4.
Qed.

(** The two ways [SendRequest] can go: [http.NewRequest] refuses the method
    or the URL and nothing happens, or [client.Do] is called once, with a
    request made from the request data. *)
Lemma SendRequest_cases (env : Env) (reqData : RequestData) (retry sleep : Z)
    (w : World) :
  match env_NewRequest env (Method reqData) (URL reqData) with
  | Some e => SendRequest env reqData retry sleep w = (Err e, w)
  | None =>
      exists req,
        SendRequest env reqData retry sleep w = (env_Do env w req, log (EvSend req) w)
        /\ carries env reqData req
  end.
Proof.
  unfold SendRequest, bind, client.NewRequest, range, client.Do.
  destruct (env_NewRequest env (Method reqData) (URL reqData)) as [e|]; [done|].
  eexists. split; [reflexivity|].
  match goal with |- carries _ _ (fold_left ?f ?hs ?r) =>
    destruct (Header_Set_fold_meta env hs r) as (H1 & H2 & H3 & _) end.
  unfold carries. cbv zeta in *. by rewrite H1, H2, H3.
Qed.

(** *** The headers of the request *)

Lemma fold_canon_other (canon : string -> string) (hs : list (string * string))
    (h : gmap string (list string)) (key : string) :
  (forall kv, In kv hs -> canon kv.1 <> key) ->
  fold_left (fun h kv => <[canon kv.1 := [kv.2]]> h) hs h !! key = h !! key.
Proof.
  revert h; induction hs as [|kv hs IH]; intros h Hno; [done|].
  cbn [fold_left]. rewrite IH by (intros kv' Hin; apply Hno; by right).
  apply lookup_insert_ne. apply Hno. by left.
Qed.

Lemma fold_canon_lookup (canon : string -> string) (hs : list (string * string))
    (h : gmap string (list string)) (k v : string) :
  In (k, v) hs ->
  (forall kv, In kv hs -> canon kv.1 = canon k -> kv = (k, v)) ->
  fold_left (fun h kv => <[canon kv.1 := [kv.2]]> h) hs h !! canon k = Some [v].
Proof.
  revert h; induction hs as [|kv hs IH]; intros h Hin Huniq; [done|].
  cbn [fold_left].
  destruct (decide ((k, v) ∈ hs)) as [Hin'|Hnot]; rewrite list_elem_of_In in *.
  - apply IH; [done|]. intros kv' H. apply Huniq. by right.
  - destruct Hin as [->|Hin]; [|done]. cbn [fst snd].
    rewrite fold_canon_other; [by rewrite lookup_insert_eq|].
    intros kv' H Heq. apply Hnot. by rewrite <- (Huniq kv' (or_intror H) Heq).
Qed.

Lemma fold_canon_origin (canon : string -> string) (hs : list (string * string))
    (h : gmap string (list string)) (key : string) (vs : list string) :
  fold_left (fun h kv => <[canon kv.1 := [kv.2]]> h) hs h !! key = Some vs ->
  h !! key = Some vs \/ exists kv, In kv hs /\ key = canon kv.1 /\ vs = [kv.2].
Proof.
  revert h; induction hs as [|kv hs IH]; intros h; [by left|].
  cbn [fold_left]. intros H. apply IH in H as [H|(kv' & Hin & H1 & H2)].
  - destruct (decide (canon kv.1 = key)) as [<-|Hne].
    + rewrite lookup_insert_eq in H. injection H as <-. right. exists kv. by split; [left|].
    + rewrite lookup_insert_ne in H by done. by left.
  - right. exists kv'. by split; [right|].
Qed.

(** X7.  When [range] visits every header of the request data once and no
    two header names have the same canonical form, the request that is sent
    holds, under the canonical form of each name, the one value of that
    header, and nothing else: the order in which the map is visited has no
    influence. *)
Theorem SendRequest_headers (env : Env) (reqData : RequestData) (retry sleep : Z)
    (w : World) :
  env_NewRequest env (Method reqData) (URL reqData) = None ->
  env_range env w (Headers reqData) ≡ₚ map_to_list (Headers reqData) ->
  (forall k1 k2, is_Some (Headers reqData !! k1) -> is_Some (Headers reqData !! k2) ->
                 env_CanonicalHeaderKey env k1 = env_CanonicalHeaderKey env k2 -> k1 = k2) ->
  exists req,
    SendRequest env reqData retry sleep w = (env_Do env w req, log (EvSend req) w)
    /\ (forall k v, Headers reqData !! k = Some v ->
                    http.Header req !! env_CanonicalHeaderKey env k = Some [v])
    /\ (forall key vs, http.Header req !! key = Some vs ->
          exists k v, Headers reqData !! k = Some v
                      /\ key = env_CanonicalHeaderKey env k /\ vs = [v]).
Proof.
  intros Hnew Hperm Hinj.
  assert (Hin : forall k v, In (k, v) (env_range env w (Headers reqData))
                            <-> Headers reqData !! k = Some v).
  { intros k v. by rewrite <- list_elem_of_In, Hperm, elem_of_map_to_list. }
  unfold SendRequest, bind, client.NewRequest, range, client.Do. rewrite Hnew.
  eexists. split; [reflexivity|].
  match goal with |- context [fold_left ?f ?hs ?r] =>
    destruct (Header_Set_fold_meta env hs r) as (_ & _ & _ & ->) end.
  cbn [http.Header]. split.
  - intros k v Hk. apply fold_canon_lookup; [by apply Hin|].
    intros [k' v'] Hkv Heq. apply Hin in Hkv. cbn [fst] in Heq.
    assert (k' = k) as -> by (apply Hinj; by eauto).
    congruence.
  - intros key vs H. apply fold_canon_origin in H as [H|([k v] & Hkv & -> & ->)].
    + by rewrite lookup_empty in H.
    + exists k, v. by split; [apply Hin|].
Qed.

Lemma SendRequest_headers_witness :
  exists req,
    SendRequest quickEnv sampleRequest 1 0 sampleWorld
    = (Ok okResponse, log (EvSend req) sampleWorld)
    /\ http.Header req !! "A" = Some ["1"].
Proof.
  destruct (SendRequest_headers quickEnv sampleRequest 1 0 sampleWorld)
    as (req & Hsend & Hhas & _); [reflexivity|reflexivity| |].
  - intros k1 k2 _ _ H. exact H.
  - exists req. split; [exact Hsend|]. by apply (Hhas "A" "1").
Defined.

(** ** What [GenerateReport] does to the files *)

Lemma keepsOthers_ret {A} (name : string) (a : A) : keepsOthers name (ret a).
Proof. by intros w r w' [= <- <-]. Qed.

Lemma keepsOthers_bind {A B} (name : string) (m : IO A) (k : A -> IO B) :
  keepsOthers name m -> (forall a, keepsOthers name (k a)) -> keepsOthers name (bind m k).
Proof.
  intros Hm Hk w r w'. unfold bind.
  destruct (m w) as [[a|e] w1] eqn:E; destruct (Hm _ _ _ E) as [Hf Hd].
  - intros H. destruct (Hk a _ _ _ H) as [Hf' Hd']. split.
    + intros p Hp. by rewrite Hf', Hf.
    + by etrans.
  - by intros [= <- <-].
Qed.

Lemma keepsOthers_WriteString (env : Env) (name data : string) :
  keepsOthers name (os.WriteString env name data).
Proof.
  intros w r w'. unfold os.WriteString.
  destruct (env_Write env w name data); intros [= <- <-]; [done|].
  cbn [files]. split; [|by rewrite dom_alter_L].
  intros p Hp. by rewrite lookup_alter_ne.
Qed.

Lemma keepsOthers_range (env : Env) (name : string) (m : gmap string string) :
  keepsOthers name (range env m).
Proof. by intros w r w' [= <- <-]. Qed.

Lemma keepsOthers_ReadAll (name : string) (body : result string) :
  keepsOthers name (io.ReadAll body).
Proof. by intros w r w' [= <- <-]. Qed.

Lemma keepsOthers_forEach {A} (name : string) (xs : list A) (f : A -> IO unit) :
  (forall x, keepsOthers name (f x)) -> keepsOthers name (forEach xs f).
Proof.
  intros Hf. induction xs as [|x xs IH]; cbn [forEach].
  - apply keepsOthers_ret.
  - apply keepsOthers_bind; [apply Hf|done].
Qed.

Lemma keepsOthers_Create (env : Env) (name : string) :
  keepsOthers name (os.Create env name).
Proof.
  intros w r w'. unfold os.Create.
  destruct (env_Create env w name); intros [= <- <-]; [done|].
  cbn [log files]. split; [|rewrite dom_insert_L; set_solver].
  intros p Hp. by rewrite lookup_insert_ne.
Qed.

Create HintDb keeps.
#[local] Hint Resolve keepsOthers_ret keepsOthers_WriteString keepsOthers_range
  keepsOthers_ReadAll keepsOthers_Create : keeps.
#[local] Hint Extern 2 (keepsOthers _ (bind _ _)) =>
  apply keepsOthers_bind; [|intros ?] : keeps.
#[local] Hint Extern 2 (keepsOthers _ (forEach _ _)) =>
  apply keepsOthers_forEach; intros ? : keeps.

(** [GenerateReport] and the files it does not write. *)
Lemma GenerateReport_keeps (env : Env) (output : string) (reqData : RequestData)
    (response : http.Response) (w w' : World) (res : result unit) :
  GenerateReport env output reqData response w = (res, w') ->
  (forall p, p <> reportName output (env_Unix env w) (http.StatusCode response) ->
             files w' !! p = files w !! p)
  /\ dom (files w) ⊆ dom (files w').
Proof.
  unfold GenerateReport. unfold bind at 1 2. unfold time.Now_Unix.
  set (name := reportName output (env_Unix env w) (http.StatusCode response)).
  destruct (os.Create env name w) as [[file|e] w1] eqn:E;
    destruct (keepsOthers_Create env name _ _ _ E) as [Hf Hd].
  - apply Create_holds in E as [-> _]. intros H.
    match type of H with ?m w1 = _ =>
      assert (Hk : keepsOthers name m) by auto 12 with keeps end.
    destruct (Hk _ _ _ H) as [Hf' Hd']. split.
    + intros p Hp. by rewrite Hf', Hf.
    + by etrans.
  - by intros [= <- <-].
Qed.

(** X8.  Whatever its outcome, [GenerateReport] changes no file but the one
    under the report's name and removes no file. *)
Theorem GenerateReport_other_files (env : Env) (output : string) (reqData : RequestData)
    (response : http.Response) (w w' : World) (res : result unit) :
  GenerateReport env output reqData response w = (res, w') ->
  (forall p, p <> reportName output (env_Unix env w) (http.StatusCode response) ->
             files w' !! p = files w !! p)
  /\ dom (files w) ⊆ dom (files w').
Proof. exact (GenerateReport_keeps env output reqData response w w' res). Qed.

Lemma GenerateReport_other_files_witness :
  files (GenerateReport brokenBodyEnv "out" sampleRequest okResponse sampleWorld).2 !! "t.http"
  = files sampleWorld !! "t.http".
Proof.
  apply (GenerateReport_other_files brokenBodyEnv "out" sampleRequest okResponse sampleWorld
           _ (GenerateReport brokenBodyEnv "out" sampleRequest okResponse sampleWorld).1).
  - by destruct (GenerateReport brokenBodyEnv "out" sampleRequest okResponse sampleWorld).
  - vm_compute. congruence.
Defined.

(** *** A failed report *)





Lemma headerBlock_unlines (hs : list (string * string)) :
  headerBlock hs = unlines (map headerLine hs).
Proof.
  induction hs as [|kv hs IH]; [done|].
  cbn [map unlines headerBlock]. unfold headerLine at 1.
  rewrite IH, !append_assoc. reflexivity.
Qed.




(** ** The name of a report *)

Lemma to_int_nonnil (z : Z) : Z.to_int z <> Decimal.Pos Decimal.Nil
                              /\ Z.to_int z <> Decimal.Neg Decimal.Nil.
Proof.
  destruct z as [|p|p]; cbn; split; try discriminate;
    intros [= H]; by apply DecimalPos.Unsigned.to_uint_nonnil in H.
Qed.

Lemma Sprintf_v_inj (a b : Z) : fmt.Sprintf_v a = fmt.Sprintf_v b -> a = b.
Proof.
  unfold fmt.Sprintf_v. intros H. apply DecimalZ.to_int_inj.
  destruct (to_int_nonnil a) as [Ha1 Ha2], (to_int_nonnil b) as [Hb1 Hb2].
  pose proof (NilZero.isi _ Ha1 Ha2) as Ia. pose proof (NilZero.isi _ Hb1 Hb2) as Ib.
  rewrite H in Ia. congruence.
Qed.

Lemma string_of_uint_digits (c : ascii) (d : Decimal.uint) :
  hasByte c (NilEmpty.string_of_uint d) = true -> hasByte c "0123456789" = true.
Proof.
  unfold hasByte.
  induction d as [|d IH|d IH|d IH|d IH|d IH|d IH|d IH|d IH|d IH|d IH];
    cbn [NilEmpty.string_of_uint list_ascii_of_string existsb]; [done|..];
    (intros H; apply orb_true_iff in H as [H|H]; [|by apply IH]);
    apply Ascii.eqb_eq in H; by subst c.
Qed.

Lemma Sprintf_v_chars (c : ascii) (z : Z) :
  hasByte c (fmt.Sprintf_v z) = true -> hasByte c "-0123456789" = true.
Proof.
  assert (Hu : forall d, hasByte c (NilZero.string_of_uint d) = true ->
                         hasByte c "0123456789" = true).
  { intros d. destruct d; try apply (string_of_uint_digits c (_ _)).
    cbn. intros H. apply orb_true_iff in H as [H|H]; [|done].
    apply Ascii.eqb_eq in H. by subst c. }
  assert (Hd : hasByte c "0123456789" = true -> hasByte c "-0123456789" = true).
  { unfold hasByte. cbn [list_ascii_of_string existsb]. intros ->. apply orb_true_r. }
  unfold fmt.Sprintf_v. destruct (Z.to_int z) as [d|d]; cbn [NilZero.string_of_int].
  - intros H. by apply Hd, (Hu d).
  - unfold hasByte at 1. cbn [list_ascii_of_string existsb]. intros H.
    apply orb_true_iff in H as [H|H]; [|by apply Hd, (Hu d)].
    apply Ascii.eqb_eq in H. by subst c.
Qed.

Lemma append_inj_l (a x y : string) : a +:+ x = a +:+ y -> x = y.
Proof. induction a as [|c a IH]; [done|]. intros [= H]. by apply IH. Qed.

Lemma append_split_at (c : ascii) (a1 a2 r1 r2 : string) :
  hasByte c a1 = false -> hasByte c a2 = false ->
  a1 +:+ String c r1 = a2 +:+ String c r2 -> a1 = a2 /\ r1 = r2.
Proof.
  unfold hasByte. revert a2; induction a1 as [|x a1 IH]; intros [|y a2];
    cbn [list_ascii_of_string existsb]; intros H1 H2.
  - by intros [= ->].
  - intros [= <- _]. by rewrite Ascii.eqb_refl in H2.
  - intros [= -> _]. by rewrite Ascii.eqb_refl in H1.
  - apply orb_false_iff in H1 as [_ H1]. apply orb_false_iff in H2 as [_ H2].
    intros [= -> H]. destruct (IH a2 H1 H2 H) as [-> ->]. done.
Qed.

Lemma Sprintf_v_lacks (c : ascii) (z : Z) :
  hasByte c "-0123456789" = false -> hasByte c (fmt.Sprintf_v z) = false.
Proof.
  intros H. destruct (hasByte c (fmt.Sprintf_v z)) eqn:E; [|done].
  apply Sprintf_v_chars in E. congruence.
Qed.

(** X10.  For one output prefix, two reports have the same file name exactly
    when they agree on the timestamp and on the status code. *)
Theorem reportName_inj (output : string) (unix1 code1 unix2 code2 : Z) :
  reportName output unix1 code1 = reportName output unix2 code2
  <-> unix1 = unix2 /\ code1 = code2.
Proof.
  split; [|by intros [-> ->]].
  unfold reportName. intros H. apply append_inj_l in H. injection H as H.
  change ("-status:" +:+ ?x) with (String "-" (String "s" ("tatus:" +:+ x))) in H.
  assert (Hsnoc : forall u x, u +:+ String "-" (String "s" x)
                              = (u +:+ "-") +:+ String "s" x).
  { intros u x. by rewrite append_assoc. }
  rewrite !Hsnoc in H.
  apply append_split_at in H as [Hu Hc];
    [|rewrite hasByte_app, Sprintf_v_lacks by done; done..].
  injection Hc as Hc.
  change (?x +:+ ".txt") with (x +:+ String "." "txt") in Hc.
  apply append_split_at in Hc as [Hc _]; [|by apply Sprintf_v_lacks..].
  apply Sprintf_v_inj in Hc.
  change (?x +:+ "-") with (x +:+ String "-" "") in Hu.
  split; [|done]. apply Sprintf_v_inj.
  revert Hu. generalize (fmt.Sprintf_v unix1) as a, (fmt.Sprintf_v unix2) as b.
  induction a as [|x a IH]; intros [|y b]; cbn.
  - done.
  - intros [= <- H']. by destruct b.
  - intros [= -> H']. by destruct a.
  - intros [= -> H']. f_equal. by apply IH.
Qed.

(** ** The length of the sleep *)

(** X11.  For -9223372036 <= sleep <= 9223372036 the duration handed to
    [time.Sleep] is [sleep] seconds in nanoseconds; for the next values up
    to 18446744073 the product overflows to a negative duration, with which
    [time.Sleep] returns at once. *)
Theorem sleep_duration (sleep : Z) :
  ((-9223372036 <= sleep <= 9223372036)%Z ->
   time.Duration_mul sleep time.Second = (sleep * 1000000000)%Z)
  /\ ((9223372037 <= sleep <= 18446744073)%Z ->
      (time.Duration_mul sleep time.Second < 0)%Z).
Proof.
  unfold time.Duration_mul, time.wrap64, time.Second.
  change (2 ^ 63)%Z with 9223372036854775808%Z.
  change (2 ^ 64)%Z with 18446744073709551616%Z.
  split; intros H.
  - rewrite Z.mod_small; lia.
  - rewrite <- (Z.mod_add _ (-1)) by lia. rewrite Z.mod_small; lia.
Qed.

Lemma sleep_duration_witness :
  time.Duration_mul 5 time.Second = 5000000000%Z
  /\ (time.Duration_mul 9223372037 time.Second < 0)%Z.
Proof.
  split.
  - apply (proj1 (sleep_duration 5)). lia.
  - apply (proj2 (sleep_duration 9223372037)). lia.
Defined.

(** ** Every run of the loop, whatever its outcome *)

Section Runs.

Context (env : Env) (output : string) (reqData : RequestData) (retry sleep : Z).

Lemma iteration_run (w w1 : World) (r : result unit) :
  iteration env output reqData retry sleep w = (r, w1) ->
  stdout w1 = stdout w
  /\ (forall p, ~ isReportName output p -> files w1 !! p = files w !! p)
  /\ dom (files w) ⊆ dom (files w1)
  /\ match r with
     | Ok _ => exists req name,
                 trace w1 = trace w ++ iterationEvents sleep (req, name)
                 /\ carries env reqData req /\ isReportName output name
     | Err _ => exists evs, trace w1 = trace w ++ evs /\ unfinished env reqData output evs
     end.
Proof.
  unfold iteration, bind.
  pose proof (SendRequest_cases env reqData retry sleep w) as HS.
  destruct (env_NewRequest env (Method reqData) (URL reqData)) as [e|].
  { rewrite HS. intros [= <- <-]. repeat split; [done|].
    exists []. rewrite app_nil_r. split; [done|by left]. }
  destruct HS as (req & -> & Hreq).
  destruct (env_Do env w req) as [response|e].
  2:{ intros [= <- <-]. cbn [log files stdout trace]. repeat split; [done|].
      exists [EvSend req]. split; [done|]. right; left. by exists req. }
  set (w0 := log (EvSend req) w).
  set (name := reportName output (env_Unix env w0) (http.StatusCode response)).
  assert (Hname : isReportName output name) by (by eexists _, _).
  destruct (GenerateReport env output reqData response w0) as [rg w2] eqn:HG.
  destruct (GenerateReport_frame _ _ _ _ _ _ _ HG) as [Ho Ht].
  destruct (GenerateReport_keeps _ _ _ _ _ _ _ HG) as [Hf Hd].
  assert (Hfiles : forall p, ~ isReportName output p -> files w2 !! p = files w !! p).
  { intros p Hp. rewrite Hf; [done|]. by intros ->. }
  destruct rg as [[]|e].
  - apply GenerateReport_ok in HG as (_ & _ & _ & _ & _ & Htr).
    intros [= <- <-]. cbn [time.Sleep log files stdout trace].
    repeat split; [done|done|done|].
    exists req, name. rewrite Htr. subst w0. cbn [log trace].
    by rewrite <- !app_assoc.
  - intros [= <- <-]. repeat split; [done|done|done|].
    destruct Ht as [Ht|Ht]; rewrite Ht; subst w0; cbn [log trace].
    + exists [EvSend req]. split; [done|]. right; left. by exists req.
    + exists [EvSend req; EvCreate name]. rewrite <- app_assoc. split; [done|].
      right; right. by exists req, name.
Qed.

Lemma iterations_run (n : nat) (w w' : World) (r : result unit) :
  iterations env n output reqData retry sleep w = (r, w') ->
  stdout w' = stdout w
  /\ (forall p, ~ isReportName output p -> files w' !! p = files w !! p)
  /\ dom (files w) ⊆ dom (files w')
  /\ exists steps evs,
       trace w' = trace w ++ flat_map (iterationEvents sleep) steps ++ evs
       /\ wellFormedSteps env reqData output steps
       /\ match r with
          | Ok _ => evs = [] /\ length steps = n
          | Err _ => (length steps < n)%nat /\ unfinished env reqData output evs
          end.
Proof.
  revert w; induction n as [|n IH]; intros w.
  - intros [= <- <-]. repeat split; [done|]. exists [], []. cbn.
    rewrite app_nil_r. repeat split. constructor.
  - cbn [iterations]. unfold bind.
    destruct (iteration env output reqData retry sleep w) as [[[]|e] w1] eqn:E;
      destruct (iteration_run _ _ _ E) as (Ho & Hf & Hd & Ht).
    + intros H. destruct (IH _ H) as (Ho' & Hf' & Hd' & steps & evs & Ht' & Hwf & Hr).
      destruct Ht as (req & name & Ht & Hc & Hn).
      split; [congruence|]. split; [intros p Hp; by rewrite Hf', Hf|].
      split; [by etrans|].
      exists ((req, name) :: steps), evs. rewrite Ht', Ht. cbn [flat_map].
      rewrite <- !app_assoc. split; [done|]. split; [by constructor|].
      destruct r as [[]|e]; cbn [length]; [destruct Hr as [-> <-]; done|].
      destruct Hr as [Hlt Hu]. split; [lia|done].
    + intros [= <- <-]. destruct Ht as (evs & Ht & Hu).
      repeat split; [done|done|done|].
      exists [], evs. cbn [flat_map app length]. split; [done|].
      split; [constructor|]. split; [lia|done].
Qed.

End Runs.

(** ** Every run of [main] *)

(** A run of [main] either stops before the loop, with one line printed and
    nothing else done, or goes through the loop with the parsed request. *)
Lemma main_run (env : Env) (flags : Flags) (w : World) :
  (exists line,
     main env flags w = fmt.Println line w
     /\ (source flags = "" \/ output flags = ""
         \/ exists e, ReadHTTPFile (source flags) w = (Err e, w)))
  \/ (source flags <> "" /\ output flags <> ""
      /\ exists content reqData,
           files w !! source flags = Some content
           /\ parseContent content = Ok reqData
           /\ exists r w',
                iterations env (Z.to_nat (effectiveRetry (retry flags))) (output flags)
                  reqData (effectiveRetry (retry flags)) (effectiveSleep (sleep flags)) w
                = (r, w')
                /\ main env flags w
                   = match r with Ok _ => w' | Err e => fmt.Println (Error e) w' end).
Proof.
  unfold main.
  destruct (String.eqb (source flags) "") eqn:Es.
  { left. eexists. split; [reflexivity|]. left. by apply String.eqb_eq. }
  destruct (String.eqb (output flags) "") eqn:Eo.
  { left. eexists. split; [reflexivity|]. right; left. by apply String.eqb_eq. }
  apply String.eqb_neq in Es, Eo. cbn [orb]. unfold ReadHTTPFile.
  destruct (files w !! source flags) as [content|] eqn:Ef.
  2:{ left. eexists. split; [reflexivity|]. right; right. by eexists. }
  destruct (parseContent content) as [reqData|e] eqn:Ep.
  2:{ left. eexists. split; [reflexivity|]. right; right. by eexists. }
  right. split; [done|]. split; [done|]. exists content, reqData.
  split; [done|]. split; [done|]. rewrite retryLoop_iterations.
  destruct (iterations _ _ _ _ _ _ w) as [r w'].
  exists r, w'. split; [done|]. by destruct r.
Qed.

Lemma sends_steps (sleep : Z) (steps : list (http.Request * string)) :
  sends (flat_map (iterationEvents sleep) steps) = map fst steps.
Proof. induction steps as [|st steps IH]; [done|]. cbn. by rewrite <- IH. Qed.

Lemma creates_steps (sleep : Z) (steps : list (http.Request * string)) :
  creates (flat_map (iterationEvents sleep) steps) = map snd steps.
Proof. induction steps as [|st steps IH]; [done|]. cbn. by rewrite <- IH. Qed.

Lemma sleeps_steps (sleep : Z) (steps : list (http.Request * string)) :
  sleeps (flat_map (iterationEvents sleep) steps)
  = map (fun _ => time.Duration_mul sleep time.Second) steps.
Proof. induction steps as [|st steps IH]; [done|]. cbn. by rewrite <- IH. Qed.

Lemma sleeps_app (a b : list Event) : sleeps (a ++ b) = sleeps a ++ sleeps b.
Proof. apply omap_app. Qed.

(** The shape of the history of a run. *)
Lemma main_trace (env : Env) (flags : Flags) (w : World) :
  exists steps evs,
    trace (main env flags w)
    = trace w ++ flat_map (iterationEvents (effectiveSleep (sleep flags))) steps ++ evs
    /\ (length steps <= Z.to_nat (effectiveRetry (retry flags)))%nat
    /\ Forall (fun st => isReportName (output flags) st.2) steps
    /\ (evs = []
        \/ (exists req, evs = [EvSend req]
                        /\ (length steps < Z.to_nat (effectiveRetry (retry flags)))%nat)
        \/ (exists req name, evs = [EvSend req; EvCreate name]
                             /\ isReportName (output flags) name
                             /\ (length steps < Z.to_nat (effectiveRetry (retry flags)))%nat)).
Proof.
  destruct (main_run env flags w)
    as [(line & -> & _)|(_ & _ & content & reqData & _ & _ & r & w' & Hrun & ->)].
  { exists [], []. cbn. rewrite app_nil_r. repeat split; [lia|constructor|by left]. }
  apply iterations_run in Hrun as (_ & _ & _ & steps & evs & Ht & Hwf & Hr).
  exists steps, evs.
  assert (Hnames : Forall (fun st => isReportName (output flags) st.2) steps).
  { eapply Forall_impl; [exact Hwf|]. by intros st [_ H]. }
  destruct r as [[]|e]; cbn [fmt.Println trace]; rewrite Ht.
  - destruct Hr as [-> <-]. repeat split; [lia|done|by left].
  - destruct Hr as [Hlt Hu]. repeat split; [lia|done|].
    destruct Hu as [->|[(req & -> & _)|(req & name & -> & _ & Hn)]];
      [by left|right; left; by eauto|right; right; by eauto].
Qed.

(** X12.  In every run of [main] the events come in complete iterations, a
    request, the creation of its report and a sleep, at most as many as the
    effective retry count, followed at most by the beginning of one
    iteration that failed: its request, or its request and the creation of
    its report.  So a report is created only after its request was sent, and
    the run sleeps only after a report was written. *)
Theorem main_event_order (env : Env) (flags : Flags) (w : World) :
  exists steps evs,
    trace (main env flags w)
    = trace w ++ flat_map (iterationEvents (effectiveSleep (sleep flags))) steps ++ evs
    /\ (length steps <= Z.to_nat (effectiveRetry (retry flags)))%nat
    /\ Forall (fun st => isReportName (output flags) st.2) steps
    /\ (evs = []
        \/ (exists req, evs = [EvSend req]
                        /\ (length steps < Z.to_nat (effectiveRetry (retry flags)))%nat)
        \/ (exists req name, evs = [EvSend req; EvCreate name]
                             /\ isReportName (output flags) name
                             /\ (length steps < Z.to_nat (effectiveRetry (retry flags)))%nat)).
Proof. exact (main_trace env flags w). Qed.

(** X13.  In every run of [main] the number of calls of [client.Do] is at
    most the effective retry count, no more reports are created than calls
    were made, and no more sleeps are taken than reports were created. *)
Theorem main_bounds (env : Env) (flags : Flags) (w : World) :
  exists evs,
    trace (main env flags w) = trace w ++ evs
    /\ (length (sends evs) <= Z.to_nat (effectiveRetry (retry flags)))%nat
    /\ (length (creates evs) <= length (sends evs))%nat
    /\ (length (sleeps evs) <= length (creates evs))%nat.
Proof.
  destruct (main_trace env flags w) as (steps & evs & Ht & Hlen & _ & Hevs).
  eexists. split; [exact Ht|].
  rewrite !sends_app, !creates_app, !sleeps_app, sends_steps, creates_steps, sleeps_steps,
    !length_app, !length_map.
  destruct Hevs as [->|[(req & -> & Hlt)|(req & name & -> & _ & Hlt)]]; cbn; lia.
Qed.

(** X14.  Every request that [main] hands to [client.Do] was made by
    [http.NewRequest] from the method (GET when it is empty), the URL and
    the body that were parsed from the source file as it was when the run
    began: the request holds that method, the parsed URL that [url.Parse]
    makes of that URL string, and that body.  Without a parsed source file
    and both flags the client is not called. *)
Theorem main_requests_from_parsed_file (env : Env) (flags : Flags) (w : World) :
  exists evs,
    trace (main env flags w) = trace w ++ evs
    /\ forall req, In req (sends evs) ->
         source flags <> "" /\ output flags <> ""
         /\ exists content reqData,
              files w !! source flags = Some content
              /\ parseContent content = Ok reqData
              /\ carries env reqData req.
Proof.
  destruct (main_run env flags w)
    as [(line & -> & _)|(Hs & Ho & content & reqData & Hf & Hp & r & w' & Hrun & ->)].
  { exists []. cbn. by rewrite app_nil_r. }
  apply iterations_run in Hrun as (_ & _ & _ & steps & evs & Ht & Hwf & Hr).
  eexists. split; [destruct r; cbn [fmt.Println trace]; exact Ht|].
  intros req Hin. split; [done|]. split; [done|]. exists content, reqData.
  split; [done|]. split; [done|].
  rewrite sends_app, sends_steps in Hin. apply in_app_or in Hin as [Hin|Hin].
  - apply in_map_iff in Hin as (st & <- & Hst).
    unfold wellFormedSteps in Hwf. rewrite Forall_forall in Hwf.
    by apply Hwf, list_elem_of_In.
  - destruct r as [[]|e].
    + by destruct Hr as [-> _].
    + destruct Hr as [_ [->|[(rq & -> & Hc)|(rq & name & -> & Hc & _)]]];
        [done|destruct Hin as [<-|[]]; done..].
Qed.

(** X15.  Whatever happens, [main] removes no file and leaves every file
    untouched whose name is not the name of a report for its output
    prefix. *)
Theorem main_other_files (env : Env) (flags : Flags) (w : World) :
  (forall p, ~ isReportName (output flags) p ->
             files (main env flags w) !! p = files w !! p)
  /\ dom (files w) ⊆ dom (files (main env flags w)).
Proof.
  destruct (main_run env flags w)
    as [(line & -> & _)|(_ & _ & content & reqData & _ & _ & r & w' & Hrun & ->)];
    [done|].
  apply iterations_run in Hrun as (_ & Hf & Hd & _).
  by destruct r.
Qed.

(** X16.  [main] prints nothing in a run that completes every iteration,
    which then number exactly the effective retry count, and exactly one
    line in every other run. *)
Theorem main_prints (env : Env) (flags : Flags) (w : World) :
  (completes env flags w ->
   stdout (main env flags w) = stdout w
   /\ exists steps,
        length steps = Z.to_nat (effectiveRetry (retry flags))
        /\ trace (main env flags w)
           = trace w ++ flat_map (iterationEvents (effectiveSleep (sleep flags))) steps)
  /\ (~ completes env flags w ->
      exists line, stdout (main env flags w) = stdout w ++ [line]).
Proof.
  split.
  - intros (Hs & Ho & reqData & w' & Hread & Hrun).
    assert (Hmain : main env flags w = w').
    { unfold main. apply String.eqb_neq in Hs, Ho. rewrite Hs, Ho. cbn [orb].
      by rewrite Hread, retryLoop_iterations, Hrun. }
    rewrite Hmain.
    apply iterations_run in Hrun as (Hout & _ & _ & steps & evs & Ht & _ & -> & Hlen).
    split; [done|]. exists steps. by rewrite Ht, app_nil_r.
  - intros Hnot.
    destruct (main_run env flags w)
      as [(line & -> & _)|(Hs & Ho & content & reqData & Hf & Hp & r & w' & Hrun & ->)].
    { by exists line. }
    destruct r as [[]|e].
    + destruct Hnot. split; [done|]. split; [done|]. exists reqData, w'.
      split; [|done]. unfold ReadHTTPFile. by rewrite Hf, Hp.
    + apply iterations_run in Hrun as (Hout & _).
      exists (Error e). cbn [fmt.Println stdout]. by rewrite Hout.
Qed.

Lemma main_prints_witness :
  stdout (main quickEnv (sampleFlags 2 0) sampleWorld) = []
  /\ stdout (main quickEnv (sampleFlags 2 0) {| files := ∅; stdout := []; trace := [] |})
     = ["open t.http: no such file or directory"].
Proof.
  split.
  - apply (proj1 (main_prints quickEnv (sampleFlags 2 0) sampleWorld)).
    split; [discriminate|]. split; [discriminate|].
    exists sampleRequest,
      (iterations quickEnv 2 "out" sampleRequest 2 0 sampleWorld).2.
    split; vm_compute; reflexivity.
  - destruct (proj2 (main_prints quickEnv (sampleFlags 2 0)
                       {| files := ∅; stdout := []; trace := [] |})) as [line Hline].
    + intros (_ & _ & reqData & w' & Hread & _). discriminate Hread.
    + rewrite Hline. vm_compute in Hline. by injection Hline as <-.
Defined.

(** X17.  With a negative retry count [main] sends nothing, creates
    nothing and changes no file. *)
Theorem main_negative_retry (env : Env) (flags : Flags) (w : World) :
  (retry flags < 0)%Z ->
  trace (main env flags w) = trace w /\ files (main env flags w) = files w.
Proof.
  intros Hneg.
  assert (Hn : Z.to_nat (effectiveRetry (retry flags)) = 0%nat).
  { unfold effectiveRetry. destruct (Z.eqb_spec (retry flags) 0); lia. }
  destruct (main_run env flags w)
    as [(line & -> & _)|(_ & _ & content & reqData & _ & _ & r & w' & Hrun & ->)];
    [done|].
  rewrite Hn in Hrun. cbn in Hrun. by injection Hrun as <- <-.
Qed.

Lemma main_negative_retry_witness :
  trace (main quickEnv (sampleFlags (-3) 0) sampleWorld) = []
  /\ files (main quickEnv (sampleFlags (-3) 0) sampleWorld) = files sampleWorld.
Proof. apply (main_negative_retry quickEnv (sampleFlags (-3) 0) sampleWorld). reflexivity. Defined.

Lemma main_requests_from_parsed_file_witness :
  Forall (fun req => http.ReqURL req = "http://x/y")
    (sends (trace (main quickEnv (sampleFlags 2 0) sampleWorld))).
Proof.
  destruct (main_requests_from_parsed_file quickEnv (sampleFlags 2 0) sampleWorld)
    as (evs & Ht & Hall).
  change (trace sampleWorld ++ evs) with evs in Ht. rewrite Ht.
  apply Forall_forall. intros req Hin. apply list_elem_of_In in Hin.
  destruct (Hall req Hin) as (_ & _ & content & reqData & Hf & Hp & _ & Hu & _).
  vm_compute in Hf. injection Hf as <-.
  vm_compute in Hp. injection Hp as <-. exact Hu.
Defined.

Lemma main_other_files_witness :
  files (main quickEnv (sampleFlags 2 0) sampleWorld) !! "t.http"
  = files sampleWorld !! "t.http".
Proof.
  apply (proj1 (main_other_files quickEnv (sampleFlags 2 0) sampleWorld)).
  intros (unix & code & H). unfold reportName in H. cbn [String.append] in H.
  discriminate H.
Defined.

(** ** One report after another *)

(** X18.  A report written under the name of an earlier report replaces
    it: after two successful calls of [GenerateReport] that read the same
    second and carry the same status code, the file system is what it was
    before the first call but for the one file, and that file holds the
    report of the second response and nothing else: its status line, its
    body, and one line for each header of the request (in some order, when
    [range] visits every header once). *)
Theorem report_overwrites (env : Env) (output : string) (reqData : RequestData)
    (first second : http.Response) (w w1 w2 : World) :
  (forall w0 m, env_range env w0 m ≡ₚ map_to_list m) ->
  GenerateReport env output reqData first w = (Ok tt, w1) ->
  GenerateReport env output reqData second w1 = (Ok tt, w2) ->
  env_Unix env w1 = env_Unix env w ->
  http.StatusCode first = http.StatusCode second ->
  exists responseBody hs,
    http.Body second = Ok responseBody
    /\ hs ≡ₚ map_to_list (Headers reqData)
    /\ files w2
       = <[reportName output (env_Unix env w) (http.StatusCode first)
           := reportText reqData (http.Status second) (unlines (map headerLine hs))
                responseBody]> (files w).
Proof.
  intros Hperm H1 H2 Hclock Hcode.
  apply GenerateReport_ok in H1 as (b1 & wa & _ & Hf1 & _).
  apply GenerateReport_ok in H2 as (b2 & wb & Hb & Hf2 & _).
  exists b2, (env_range env wb (Headers reqData)). split; [done|]. split; [apply Hperm|].
  by rewrite Hf2, Hf1, Hclock, <- Hcode, insert_insert_eq, headerBlock_unlines.
Qed.

Lemma report_overwrites_witness :
  files (GenerateReport quickEnv "out" sampleRequest
           {| http.Status := "404 Not Found"; http.StatusCode := 200; http.Body := Ok "gone" |}
           (GenerateReport quickEnv "out" sampleRequest okResponse sampleWorld).2).2
  = <["out|1700000000-status:200.txt"
      := reportText sampleRequest "404 Not Found" (unlines (map headerLine [("A", "1")]))
           "gone"]> (files sampleWorld).
Proof.
  destruct (report_overwrites quickEnv "out" sampleRequest okResponse
              {| http.Status := "404 Not Found"; http.StatusCode := 200;
                 http.Body := Ok "gone" |}
              sampleWorld
              (GenerateReport quickEnv "out" sampleRequest okResponse sampleWorld).2
              (GenerateReport quickEnv "out" sampleRequest
                 {| http.Status := "404 Not Found"; http.StatusCode := 200;
                    http.Body := Ok "gone" |}
                 (GenerateReport quickEnv "out" sampleRequest okResponse sampleWorld).2).2)
    as (responseBody & hs & Hb & Hhs & Hf);
    [intros w0 m; reflexivity|vm_compute; reflexivity|vm_compute; reflexivity
    |reflexivity|reflexivity|].
  injection Hb as <-.
  assert (Hone : hs = [("A", "1")]).
  { apply Permutation_singleton_r. by rewrite Hhs. }
  by rewrite Hf, Hone.
Defined.

(** ** The header lines of a report *)

(** X20.  When [range] visits every header of the request data once, the
    report that a successful [GenerateReport] leaves lists, between the
    line "Request Headers:" and the empty line before "Request Body:",
    exactly one line [name: value] for every parsed header, in some
    order. *)
Theorem report_lists_headers (env : Env) (output : string) (reqData : RequestData)
    (response : http.Response) (w w' : World) :
  (forall w0 m, env_range env w0 m ≡ₚ map_to_list m) ->
  GenerateReport env output reqData response w = (Ok tt, w') ->
  exists responseBody hs,
    hs ≡ₚ map_to_list (Headers reqData)
    /\ files w' !! reportName output (env_Unix env w) (http.StatusCode response)
       = Some (reportText reqData (http.Status response)
                 (unlines (map headerLine hs)) responseBody).
Proof.
  intros Hperm H. apply GenerateReport_ok in H as (responseBody & w1 & _ & Hf & _).
  exists responseBody, (env_range env w1 (Headers reqData)). split; [apply Hperm|].
  by rewrite Hf, lookup_insert_eq, headerBlock_unlines.
Qed.

Lemma report_lists_headers_witness :
  exists responseBody hs,
    hs ≡ₚ map_to_list (Headers sampleRequest)
    /\ files (GenerateReport quickEnv "out" sampleRequest okResponse sampleWorld).2
       !! "out|1700000000-status:200.txt"
       = Some (reportText sampleRequest "200 OK" (unlines (map headerLine hs)) responseBody).
Proof.
  apply (report_lists_headers quickEnv "out" sampleRequest okResponse sampleWorld
           (GenerateReport quickEnv "out" sampleRequest okResponse sampleWorld).2).
  - intros w0 m. reflexivity.
  - vm_compute. reflexivity.
Defined.
